(** * Capacity accounting of [Warehouse] (src/warehouse.py) and the web
      application around it (src/app.py)

    A shallow embedding of the [Warehouse] class, of the capacity ledger
    [Varasto] it extends and of the route handlers of [app.py], with the
    properties of the specification stated and proved over it.

    The methods compute with whatever numbers they are given.  [app.py]
    passes Python floats (every form number is [float(value)]); a caller of
    [warehouse.py] may as well pass [int] or [fractions.Fraction].  The
    embedding is therefore written over an interface of numbers, [Number],
    holding the literals and the operations the source uses, with two
    instances:
    - [Binary64.number]: IEEE 754 binary64, the Python float, rounding,
      infinities and NaN included;
    - [Exact.number]: the rationals [Qc], the values Python computes with
      on [int] and [fractions.Fraction] arguments where it adds, subtracts
      and compares.
    A property that holds of the code whatever the numbers is proved over
    the interface; a property of exact arithmetic is stated over [Qc] and
    says so.

    Methods mutate [self]; they are embedded in state-passing style, as
    functions from the object before the call to the object after the call
    paired with the returned value. *)

From Stdlib Require Import ZArith QArith Qcanon Lqa SpecFloat.
From stdpp Require Import base decidable option numbers strings gmap fin_maps.

(** ** Numbers *)

(** The literals [0] and [100] and the operations [+], [-], [*], [/], [<=],
    [<] and [==] of the source.  [a > b] is [ltb b a]. *)
Class Number (num : Type) : Type := {
  zero : num;
  hundred : num;
  add : num → num → num;
  sub : num → num → num;
  mul : num → num → num;
  div : num → num → num;
  leb : num → num → bool;
  ltb : num → num → bool;
  eqb : num → num → bool
}.

(** The few facts about comparisons that some properties need; they hold
    of floats, NaN included, and of exact numbers. *)
Class NumberLaws (num : Type) `{Number num} : Prop := {
  leb_zero_zero : leb zero zero = true;
  ltb_irrefl : ∀ x : num, ltb x x = false;
  positive_not_leb : ∀ x : num, ltb zero x = true → leb x zero = false
}.

(** Python's [float]: binary64, rounded to nearest, ties to even, with the
    operations of [SpecFloat].  Python raises [ZeroDivisionError] where
    IEEE 754 divides by zero; the one division of the source is guarded by
    [tilavuus == 0], which both zeros satisfy, so that case never arises. *)
Module Binary64.

Definition prec : Z := 53.
Definition emax : Z := 1024.

(** The float nearest to an integer, as [float(n)] gives it. *)
Definition of_Z (n : Z) : spec_float := binary_normalize prec emax n 0 false.

#[global] Instance number : Number spec_float := {|
  zero := S754_zero false;
  hundred := of_Z 100;
  add := SFadd prec emax;
  sub := SFsub prec emax;
  mul := SFmul prec emax;
  div := SFdiv prec emax;
  leb := SFleb;
  ltb := SFltb;
  eqb := SFeqb
|}.

(** The float a decimal literal with one digit after the point denotes:
    [tenths 1] is [0.1], [tenths 7] is [0.7]. *)
Definition tenths (n : Z) : spec_float := div (of_Z n) (of_Z 10).

Definition inf : spec_float := S754_infinity false.
Definition nan : spec_float := S754_nan.

End Binary64.

(** Exact numbers: the arithmetic of [fractions.Fraction], and of [int]
    under [+], [-] and the comparisons (on two [int]s Python's [/] is the
    division of floats, which this instance does not describe). *)
Module Exact.

#[global] Instance number : Number Qc := {|
  zero := 0%Qc;
  hundred := Qc_of_Z 100;
  add := Qcplus;
  sub := Qcminus;
  mul := Qcmult;
  div := Qcdiv;
  leb := λ x y, bool_decide (x ≤ y)%Qc;
  ltb := λ x y, bool_decide (x < y)%Qc;
  eqb := λ x y, bool_decide (x = y)
|}.

End Exact.

(** ** The capacity ledger [Varasto] *)

Module Varasto.

(** Modelled from the spec: the error kinds a ledger operation reports
    (section 7). *)
Inductive error : Type :=
| InvalidArgument
| CapacityExceeded
| InsufficientStock.

Section ledger.
Context {num : Type} `{Number num}.

(** Modelled from the spec: the attributes of [Varasto], whose class is not
    among the sources.  Section 3, CapacityLedger: [capacity] and
    [occupied], under the names [app.py] and [warehouse.py] read and write
    them by, [tilavuus] and [saldo]. *)
Record t : Type := Build { tilavuus : num; saldo : num }.

(** Modelled from the spec: the constructor [Varasto.__init__] of
    [varasto.py], which is not among the sources.  Section 4.1, [create]:
    fails with [InvalidArgument] if [capacity <= 0], or if
    [initial_occupied] is negative or exceeds [capacity]. *)
Definition init (tilavuus alku_saldo : num) : error + t :=
  if leb tilavuus zero then inl InvalidArgument
  else if ltb alku_saldo zero then inl InvalidArgument
  else if ltb tilavuus alku_saldo then inl InvalidArgument
  else inr (Build tilavuus alku_saldo).

(** Modelled from the spec: [Varasto.paljonko_mahtuu] of [varasto.py].
    Section 4.1, [free_space]: returns [capacity - occupied], no side
    effects. *)
Definition paljonko_mahtuu (self : t) : num := sub (tilavuus self) (saldo self).

(** Modelled from the spec: [Varasto.lisaa_varastoon] of [varasto.py].
    Section 4.1, [reserve]: fails with [InvalidArgument] if [amount <= 0],
    with [CapacityExceeded] if [amount > free_space()]; on success
    increments [occupied] exactly by [amount]. *)
Definition lisaa_varastoon (maara : num) (self : t) : t * option error :=
  if leb maara zero then (self, Some InvalidArgument)
  else if ltb (paljonko_mahtuu self) maara then (self, Some CapacityExceeded)
  else (Build (tilavuus self) (add (saldo self) maara), None).

(** Modelled from the spec: [Varasto.ota_varastosta] of [varasto.py].
    Section 4.1, [release]: fails with [InvalidArgument] if [amount <= 0],
    with [InsufficientStock] if [amount > occupied]; on success decrements
    [occupied] exactly by [amount]. *)
Definition ota_varastosta (maara : num) (self : t) : t * option error :=
  if leb maara zero then (self, Some InvalidArgument)
  else if ltb (saldo self) maara then (self, Some InsufficientStock)
  else (Build (tilavuus self) (sub (saldo self) maara), None).

End ledger.

Arguments t num : clear implicits.
Arguments Build {num} tilavuus saldo.

End Varasto.

(** ** The class [Warehouse] *)

(** The tuple [(success, error_message)] both item methods return. *)
Definition result : Type := bool * option string.

Definition ok : result := (true, None).

(** The four failures, named by the error kind of the spec (section 7) each
    message stands for. *)
Definition InvalidArgument : result := (false, Some "Quantity must be positive"%string).
Definition CapacityExceeded : result := (false, Some "Not enough space in warehouse"%string).
Definition InsufficientStock : result := (false, Some "Not enough items to remove"%string).
Definition NotFound : result := (false, Some "Item not found"%string).

Definition failed (r : result) : Prop := r.1 = false.

Section warehouse.
Context {num : Type} `{Number num}.

(** [Warehouse] extends [Varasto]: the inherited attributes are the field
    [base]; [name] and [items] are its own. *)
Record Warehouse : Type := mkWarehouse {
  base : Varasto.t num;
  name : string;
  items : gmap string num
}.

Definition tilavuus (self : Warehouse) : num := Varasto.tilavuus (base self).
Definition saldo (self : Warehouse) : num := Varasto.saldo (base self).
Definition paljonko_mahtuu (self : Warehouse) : num :=
  Varasto.paljonko_mahtuu (base self).

(** [Warehouse.__init__]: the base constructor, then [name] and an empty
    [items]. *)
Definition init (name : string) (tilavuus : num) (alku_saldo : num)
  : Varasto.error + Warehouse :=
  match Varasto.init tilavuus alku_saldo with
  | inl e => inl e
  | inr b => inr (mkWarehouse b name ∅)
  end.

(** [Warehouse.add_item].  The value [lisaa_varastoon] returns is dropped,
    as in the source. *)
Definition add_item (item_name : string) (quantity : num) (self : Warehouse)
  : Warehouse * result :=
  if leb quantity zero then (self, InvalidArgument)
  else if ltb (paljonko_mahtuu self) quantity then (self, CapacityExceeded)
  else
    let base' := (Varasto.lisaa_varastoon quantity (base self)).1 in
    let items' :=
      match items self !! item_name with
      | Some current => <[item_name := add current quantity]> (items self)
      | None => <[item_name := quantity]> (items self)
      end in
    (mkWarehouse base' (name self) items', ok).

(** [Warehouse.remove_item]; [quantity = None] is the default argument. *)
Definition remove_item (item_name : string) (quantity : option num) (self : Warehouse)
  : Warehouse * result :=
  match items self !! item_name with
  | None => (self, NotFound)
  | Some current =>
      let quantity :=
        match quantity with
        | None => current
        | Some q => q
        end in
      if leb quantity zero then (self, InvalidArgument)
      else if ltb current quantity then (self, InsufficientStock)
      else
        let base' := (Varasto.ota_varastosta quantity (base self)).1 in
        let remaining := sub current quantity in
        let items' := <[item_name := remaining]> (items self) in
        let items'' :=
          if eqb remaining zero then delete item_name items' else items' in
        (mkWarehouse base' (name self) items'', ok)
  end.

(** [Warehouse.get_item_count]. *)
Definition get_item_count (self : Warehouse) : nat := size (items self).

(** [Warehouse.get_space_left_percent]. *)
Definition get_space_left_percent (self : Warehouse) : Warehouse * num :=
  if eqb (tilavuus self) zero then (self, zero)
  else (self, mul (div (paljonko_mahtuu self) (tilavuus self)) hundred).

(** ** Calls and runs *)

(** One call of an item method, with its arguments. *)
Inductive call : Type :=
| AddItem (item_name : string) (quantity : num)
| RemoveItem (item_name : string) (quantity : option num).

Definition perform (c : call) (self : Warehouse) : Warehouse * result :=
  match c with
  | AddItem item_name quantity => add_item item_name quantity self
  | RemoveItem item_name quantity => remove_item item_name quantity self
  end.

(** The item name a call is about. *)
Definition item_of (c : call) : string :=
  match c with
  | AddItem item_name _ => item_name
  | RemoveItem item_name _ => item_name
  end.

(** The warehouse after a sequence of calls, whatever each one returned. *)
Definition run (cs : list call) (self : Warehouse) : Warehouse :=
  foldl (λ w c, (perform c w).1) self cs.

(** ** The invariants of the data model *)

(** [sum(items.values())].  On floats the value of a sum depends on the
    order of its terms, which a finite map does not keep; [total] is used
    on exact numbers, where the order is immaterial, and on the empty
    mapping. *)
Definition total (m : gmap string num) : num :=
  map_fold (λ _ quantity acc, add quantity acc) zero m.

(** Every key of the mapping holds a strictly positive quantity. *)
Definition positive_items (m : gmap string num) : Prop :=
  map_Forall (λ _ quantity, ltb zero quantity = true) m.

#[global] Instance positive_items_dec (m : gmap string num) :
  Decision (positive_items m).
Proof. unfold positive_items. apply _. Defined.

End warehouse.

Arguments Warehouse num : clear implicits.
Arguments call num : clear implicits.
Arguments mkWarehouse {num} base name items.

(** ** The web application (src/app.py) *)

(** The module-level state of [app.py] and its route handlers.  A handler
    is embedded by what it does to the module state and by the messages it
    flashes; the page it renders or redirects to is not part of the model.
    Form fields are the strings the handler reads, an absent numeric field
    being the empty string (the integer [0] the handler falls back on is as
    false to [parse_float] as the empty string); labelled name fields are
    taken after [strip()].  Python's [float] is a parameter of the section,
    with [None] for a [ValueError]; over [Binary64.number] it may return
    any float, infinities and NaN included. *)
Module App.

Local Abbreviation Warehouse_add_item := add_item (only parsing).
Local Abbreviation Warehouse_remove_item := remove_item (only parsing).

(** The request method, as far as the handlers tell it apart. *)
Inductive method : Type := GET | POST.

Section routes.
Context {num : Type} `{Number num}.
Variable float : string → option num.

(** [warehouses] and [next_warehouse_id]. *)
Record t : Type := Build {
  warehouses : gmap Z (Warehouse num);
  next_warehouse_id : Z
}.

(** The state the module starts in. *)
Definition initial : t := Build ∅ 1.

(** What is flashed: a literal text, the error returned by a [Warehouse]
    method ([Text], or [NoText] for Python's [None]), or one of the
    formatted success messages, kept as the values it interpolates. *)
Inductive message : Type :=
| Text (s : string)
| NoText
| Created (name : string)
| Updated (name : string)
| Added (quantity : num) (item_name : string) (warehouse_name : string)
| Removed (item_name : string) (warehouse_name : string)
| Deleted (name : string).

Definition text_of (error : option string) : message :=
  match error with
  | Some s => Text s
  | None => NoText
  end.

(** A call [flash(message, category)]. *)
Definition flash : Type := message * string.

(** What a handler leaves behind: the module state and the flashes of the
    request, or the exception of the [Warehouse] constructor. *)
Definition reply : Type := Varasto.error + t * list flash.

(** [get_warehouse_or_redirect].  The callers test the object it returns
    for truth: a [Warehouse] counts as true, [None] as false. *)
Definition get_warehouse_or_redirect (warehouse_id : Z) (app : t)
  : option (Warehouse num) * list flash :=
  match warehouses app !! warehouse_id with
  | Some warehouse => (Some warehouse, [])
  | None => (None, [(Text "Warehouse not found", "error"%string)])
  end.

(** [parse_float]. *)
Definition parse_float (value : string) (default : num) : option num :=
  if decide (value = ""%string) then Some default else float value.

(** [validate_warehouse_form]; [capacity = None] is Python's [None]. *)
Definition validate_warehouse_form
    (name : string) (capacity : option num) (min_capacity : num) : option string :=
  if decide (name = ""%string) then Some "Warehouse name is required"%string
  else match capacity with
  | None => Some "Capacity must be a number"%string
  | Some capacity =>
      if leb capacity zero then Some "Capacity must be positive"%string
      else if ltb capacity min_capacity
        then Some "Cannot reduce capacity below current stock"%string
      else None
  end.

(** [index]. *)
Definition index (app : t) : reply := inr (app, []).

(** [warehouse_detail]. *)
Definition warehouse_detail (warehouse_id : Z) (app : t) : reply :=
  inr (app, (get_warehouse_or_redirect warehouse_id app).2).

(** [create_warehouse].  The branch where the form is accepted without a
    capacity is never taken: [validate_warehouse_form] rejects [None]. *)
Definition create_warehouse (m : method) (name capacity : string) (app : t) : reply :=
  match m with
  | GET => inr (app, [])
  | POST =>
      let capacity := parse_float capacity zero in
      match validate_warehouse_form name capacity zero, capacity with
      | Some error, _ => inr (app, [(Text error, "error"%string)])
      | None, None => inr (app, [])
      | None, Some capacity =>
          match init name capacity zero with
          | inl e => inl e
          | inr warehouse =>
              inr (Build (<[next_warehouse_id app := warehouse]> (warehouses app))
                     (next_warehouse_id app + 1),
                   [(Created name, "success"%string)])
          end
      end
  end.

(** [edit_warehouse]; the two attributes are assigned directly.  As in
    [create_warehouse], an accepted form has a capacity. *)
Definition edit_warehouse
    (m : method) (warehouse_id : Z) (name capacity : string) (app : t) : reply :=
  match get_warehouse_or_redirect warehouse_id app with
  | (None, flashes) => inr (app, flashes)
  | (Some warehouse, _) =>
      match m with
      | GET => inr (app, [])
      | POST =>
          let capacity := parse_float capacity zero in
          match validate_warehouse_form name capacity (saldo warehouse), capacity with
          | Some error, _ => inr (app, [(Text error, "error"%string)])
          | None, None => inr (app, [])
          | None, Some capacity =>
              let warehouse' :=
                mkWarehouse (Varasto.Build capacity (saldo warehouse)) name
                  (items warehouse) in
              inr (Build (<[warehouse_id := warehouse']> (warehouses app))
                     (next_warehouse_id app),
                   [(Updated name, "success"%string)])
          end
      end
  end.

(** [add_item]; [warehouse_id] is what [int()] made of the form field,
    [None] for a [ValueError]. *)
Definition add_item
    (m : method) (warehouse_id : option Z) (item_name quantity : string) (app : t)
  : reply :=
  let not_found := inr (app, [(Text "Warehouse not found", "error"%string)]) in
  match m with
  | GET => inr (app, [])
  | POST =>
      match warehouse_id with
      | None => not_found
      | Some warehouse_id =>
          match warehouses app !! warehouse_id with
          | None => not_found
          | Some warehouse =>
              let quantity := parse_float quantity zero in
              if decide (item_name = ""%string)
              then inr (app, [(Text "Item name is required", "error"%string)])
              else match quantity with
              | None =>
                  inr (app, [(Text "Quantity must be a number", "error"%string)])
              | Some quantity =>
                  let '(warehouse', (success, error)) :=
                    Warehouse_add_item item_name quantity warehouse in
                  let app' :=
                    Build (<[warehouse_id := warehouse']> (warehouses app))
                      (next_warehouse_id app) in
                  if success
                  then inr (app', [(Added quantity item_name (name warehouse'),
                                    "success"%string)])
                  else inr (app', [(text_of error, "error"%string)])
              end
          end
      end
  end.

(** [remove_item]; [quantity_str] is the form field after [strip()]. *)
Definition remove_item
    (warehouse_id : Z) (item_name quantity_str : string) (app : t) : reply :=
  match get_warehouse_or_redirect warehouse_id app with
  | (None, flashes) => inr (app, flashes)
  | (Some warehouse, _) =>
      let quantity :=
        if decide (quantity_str = ""%string) then None
        else parse_float quantity_str zero in
      let is_none := match quantity with None => true | Some _ => false end in
      if bool_decide (quantity_str ≠ ""%string) && is_none
      then inr (app, [(Text "Quantity must be a number", "error"%string)])
      else
        let '(warehouse', (success, error)) :=
          Warehouse_remove_item item_name quantity warehouse in
        let app' :=
          Build (<[warehouse_id := warehouse']> (warehouses app))
            (next_warehouse_id app) in
        if success
        then inr (app', [(Removed item_name (name warehouse'), "success"%string)])
        else inr (app', [(text_of error, "error"%string)])
  end.

(** [delete_warehouse]. *)
Definition delete_warehouse (warehouse_id : Z) (app : t) : reply :=
  match get_warehouse_or_redirect warehouse_id app with
  | (None, flashes) => inr (app, flashes)
  | (Some warehouse, _) =>
      inr (Build (delete warehouse_id (warehouses app)) (next_warehouse_id app),
           [(Deleted (name warehouse), "success"%string)])
  end.

(** One request to the application. *)
Inductive request : Type :=
| Index
| WarehouseDetail (warehouse_id : Z)
| CreateWarehouse (m : method) (name capacity : string)
| EditWarehouse (m : method) (warehouse_id : Z) (name capacity : string)
| AddItemForm (m : method) (warehouse_id : option Z) (item_name quantity : string)
| RemoveItemForm (warehouse_id : Z) (item_name quantity_str : string)
| DeleteWarehouse (warehouse_id : Z).

Definition handle (r : request) (app : t) : reply :=
  match r with
  | Index => index app
  | WarehouseDetail warehouse_id => warehouse_detail warehouse_id app
  | CreateWarehouse m name capacity => create_warehouse m name capacity app
  | EditWarehouse m warehouse_id name capacity =>
      edit_warehouse m warehouse_id name capacity app
  | AddItemForm m warehouse_id item_name quantity =>
      add_item m warehouse_id item_name quantity app
  | RemoveItemForm warehouse_id item_name quantity_str =>
      remove_item warehouse_id item_name quantity_str app
  | DeleteWarehouse warehouse_id => delete_warehouse warehouse_id app
  end.

(** The module state a request leaves; an exception leaves it as it was. *)
Definition after (r : request) (app : t) : t :=
  match handle r app with
  | inr (app', _) => app'
  | inl _ => app
  end.

(** The module state after a sequence of requests. *)
Definition serve (rs : list request) (app : t) : t :=
  foldl (λ app r, after r app) app rs.

End routes.

Arguments t num : clear implicits.
Arguments message num : clear implicits.
Arguments flash num : clear implicits.
Arguments reply num : clear implicits.
Arguments Build {num} warehouses next_warehouse_id.
Arguments Text {num} s.
Arguments NoText {num}.
Arguments initial {num}.

End App.

(** ** The invariants of the registry *)

Section registry_invariants.
Context {num : Type} `{Number num}.

(** What every warehouse of the registry satisfies, whatever the numbers: it
    has a name, and no item under the empty name. *)
Definition kept (w : Warehouse num) : Prop :=
  name w ≠ ""%string ∧ items w !! ""%string = None.

(** The ids handed out so far lie below the counter, and every warehouse
    stored is [kept]. *)
Definition well_kept (app : App.t num) : Prop :=
  (1 ≤ App.next_warehouse_id app)%Z
  ∧ map_Forall (λ id w, (1 ≤ id < App.next_warehouse_id app)%Z ∧ kept w)
      (App.warehouses app).

End registry_invariants.

(** The warehouse id a request is addressed to, if any. *)
Definition addressed (r : App.request) : option Z :=
  match r with
  | App.EditWarehouse _ warehouse_id _ _ => Some warehouse_id
  | App.AddItemForm _ warehouse_id _ _ => warehouse_id
  | App.RemoveItemForm warehouse_id _ _ => Some warehouse_id
  | App.DeleteWarehouse warehouse_id => Some warehouse_id
  | _ => None
  end.

(** ** Exact numbers: the invariants of the data model *)

Local Open Scope Qc_scope.

(** The state of a warehouse created with initial balance [alku_saldo], on
    exact numbers. *)
Definition invariant (alku_saldo : Qc) (self : Warehouse Qc) : Prop :=
  0 ≤ alku_saldo
  ∧ total (items self) + alku_saldo = saldo self
  ∧ positive_items (items self)
  ∧ 0 ≤ saldo self ≤ tilavuus self.

(** What the item methods rely on, on exact numbers: positive quantities,
    all of them counted in a balance that is within the capacity. *)
Definition consistent (self : Warehouse Qc) : Prop :=
  positive_items (items self)
  ∧ total (items self) ≤ saldo self
  ∧ saldo self ≤ tilavuus self.

(** ** Concrete warehouses on exact numbers (the scenarios of the spec,
       section 8) *)

(** [Warehouse("varasto", 100)]. *)
Definition varasto_100 : Warehouse Qc :=
  mkWarehouse (Varasto.Build (Qc_of_Z 100) 0) "varasto" ∅.

(** [Warehouse("varasto", 100, 30)]: created with an initial balance. *)
Definition varasto_100_30 : Warehouse Qc :=
  mkWarehouse (Varasto.Build (Qc_of_Z 100) (Qc_of_Z 30)) "varasto" ∅.

(** Scenario 1: [add_item("bolt", 30)] on a new warehouse of capacity 100. *)
Definition with_30_bolts : Warehouse Qc :=
  run [AddItem "bolt" (Qc_of_Z 30)] varasto_100.


(** Scenarios 1 to 3, in order. *)
Definition scenario_1_2_3 : list (call Qc) :=
  [AddItem "bolt" (Qc_of_Z 30); AddItem "bolt" (Qc_of_Z 80);
   RemoveItem "bolt" (Some (Qc_of_Z 30))].

(** A state no sequence of calls produces: an entry holding 0. *)
Definition with_no_bolts_listed : Warehouse Qc :=
  mkWarehouse (Varasto.Build (Qc_of_Z 100) 0) "varasto" {[ "bolt"%string := 0 ]}.

(** Two more states no sequence of calls produces: a negative balance, and
    more bolts than the balance counts. *)
Definition with_negative_balance : Warehouse Qc :=
  mkWarehouse (Varasto.Build (Qc_of_Z 100) (- 1)) "varasto" ∅.


(** ** Concrete warehouses on floats *)

(** [Warehouse("varasto", 100.0)]. *)
Definition float_varasto_100 : Warehouse spec_float :=
  mkWarehouse (Varasto.Build (Binary64.of_Z 100) zero) "varasto" ∅.

(** [add_item("bolt", 30.0)] on it. *)
Definition float_with_30_bolts : Warehouse spec_float :=
  run [AddItem "bolt" (Binary64.of_Z 30)] float_varasto_100.

(** [add_item("bolt", 93.0)] on it. *)
Definition float_with_93_bolts : Warehouse spec_float :=
  run [AddItem "bolt" (Binary64.of_Z 93)] float_varasto_100.


(** [Warehouse("varasto", 1.0)]. *)
Definition float_varasto_1 : Warehouse spec_float :=
  mkWarehouse (Varasto.Build (Binary64.of_Z 1) zero) "varasto" ∅.

(** [add_item("bolt", 0.1)] on it. *)
Definition float_with_a_tenth : Warehouse spec_float :=
  run [AddItem "bolt" (Binary64.tenths 1)] float_varasto_1.



(** [Warehouse("varasto", inf)] after [add_item("bolt", inf)]. *)
Definition float_with_inf_bolts : Warehouse spec_float :=
  run [AddItem "bolt" Binary64.inf]
    (mkWarehouse (Varasto.Build Binary64.inf zero) "varasto" ∅).


(** [Warehouse("varasto", 1.0)] after adding 0.1 of one item and 0.2 of
    another and removing both. *)
Definition float_emptied : Warehouse spec_float :=
  run [AddItem "nail" (Binary64.tenths 1); AddItem "bolt" (Binary64.tenths 2);
       RemoveItem "nail" None; RemoveItem "bolt" None] float_varasto_1.

(** [add_item("bolt", nan)] on a warehouse of capacity 100.0. *)
Definition float_with_nan_bolts : Warehouse spec_float :=
  run [AddItem "bolt" Binary64.nan] float_varasto_100.


(** ** A conversion for the examples *)

Fixpoint digits (s : string) (acc : Z) : option Z :=
  match s with
  | EmptyString => Some acc
  | String c rest =>
      let n := Z.of_N (Ascii.N_of_ascii c) in
      if (48 <=? n)%Z && (n <=? 57)%Z
      then digits rest (10 * acc + (n - 48))
      else None
  end.

(** An instance of the parameter [float] for the examples.  On a non-empty
    string of decimal digits it returns the float nearest to the number
    written, as [float] does; every other string is refused here, although
    [float] accepts more (signs, fractions, exponents, "inf", "nan"). *)
Definition digits_float (s : string) : option spec_float :=
  match s with
  | EmptyString => None
  | _ => Binary64.of_Z <$> digits s 0
  end.

(** A session: two warehouses created, bolts added to the first, the second
    resized and then deleted, a third created. *)
Definition session : list App.request :=
  [App.CreateWarehouse App.POST "north" "100";
   App.CreateWarehouse App.POST "south" "50";
   App.AddItemForm App.POST (Some 1%Z) "bolt" "30";
   App.EditWarehouse App.POST 2%Z "south" "60";
   App.DeleteWarehouse 2%Z;
   App.CreateWarehouse App.POST "west" "10"].

(** * Numbers: the laws of comparison *)

#[global] Instance binary64_laws : NumberLaws spec_float.
Proof.
  split.
  - reflexivity.
  - intros [s|[]| |[] m e]; try reflexivity;
      cbn; unfold SFltb, SFcompare;
      rewrite Z.compare_refl, Pos.compare_cont_refl; reflexivity.
  - intros [s|[]| |[] m e]; cbn; intros Hpos;
      first [discriminate Hpos | reflexivity].
Qed.

#[global] Instance exact_laws : NumberLaws Qc.
Proof.
  split; cbn.
  - apply bool_decide_eq_true_2, Qcle_refl.
  - intros x. apply bool_decide_eq_false_2.
    intros Hlt. exact (Qclt_not_eq _ _ Hlt eq_refl).
  - intros x Hpos. apply bool_decide_eq_true_1 in Hpos.
    apply bool_decide_eq_false_2, Qclt_not_le, Hpos.
Qed.

(** * The branches of the two methods, whatever the numbers *)

Section branches.
Context {num : Type} `{Number num}.
Implicit Types (self : Warehouse num) (item_name : string).

Lemma reserve_within (maara : num) (b : Varasto.t num) :
  leb maara zero = false → ltb (Varasto.paljonko_mahtuu b) maara = false →
  Varasto.lisaa_varastoon maara b
  = (Varasto.Build (Varasto.tilavuus b) (add (Varasto.saldo b) maara), None).
Proof. intros Hpos Hfree. unfold Varasto.lisaa_varastoon. rewrite Hpos, Hfree. done. Qed.

Lemma release_within (maara : num) (b : Varasto.t num) :
  leb maara zero = false → ltb (Varasto.saldo b) maara = false →
  Varasto.ota_varastosta maara b
  = (Varasto.Build (Varasto.tilavuus b) (sub (Varasto.saldo b) maara), None).
Proof. intros Hpos Hstock. unfold Varasto.ota_varastosta. rewrite Hpos, Hstock. done. Qed.

Lemma lisaa_varastoon_tilavuus (maara : num) (b : Varasto.t num) :
  Varasto.tilavuus (Varasto.lisaa_varastoon maara b).1 = Varasto.tilavuus b.
Proof.
  unfold Varasto.lisaa_varastoon.
  destruct (leb maara zero); [reflexivity|].
  destruct (ltb (Varasto.paljonko_mahtuu b) maara); reflexivity.
Qed.

Lemma ota_varastosta_tilavuus (maara : num) (b : Varasto.t num) :
  Varasto.tilavuus (Varasto.ota_varastosta maara b).1 = Varasto.tilavuus b.
Proof.
  unfold Varasto.ota_varastosta.
  destruct (leb maara zero); [reflexivity|].
  destruct (ltb (Varasto.saldo b) maara); reflexivity.
Qed.

Lemma add_item_nonpositive item_name quantity self :
  leb quantity zero = true →
  add_item item_name quantity self = (self, InvalidArgument).
Proof. intros Hq. unfold add_item. rewrite Hq. reflexivity. Qed.

Lemma add_item_too_much item_name quantity self :
  leb quantity zero = false → ltb (paljonko_mahtuu self) quantity = true →
  add_item item_name quantity self = (self, CapacityExceeded).
Proof. intros Hq Hfree. unfold add_item. rewrite Hq, Hfree. reflexivity. Qed.

(** The successful branch: the ledger passes the same two tests, so the
    balance becomes [saldo + quantity]; the entry of [item_name] is added
    to, or created. *)
Lemma add_item_fits item_name quantity self :
  leb quantity zero = false → ltb (paljonko_mahtuu self) quantity = false →
  add_item item_name quantity self
  = (mkWarehouse (Varasto.Build (tilavuus self) (add (saldo self) quantity))
       (name self)
       match items self !! item_name with
       | Some current => <[item_name := add current quantity]> (items self)
       | None => <[item_name := quantity]> (items self)
       end,
     ok).
Proof.
  intros Hq Hfree. unfold add_item. rewrite Hq, Hfree.
  rewrite (reserve_within quantity (base self) Hq Hfree). reflexivity.
Qed.

Lemma remove_item_absent item_name quantity self :
  items self !! item_name = None →
  remove_item item_name quantity self = (self, NotFound).
Proof. intros Hk. unfold remove_item. rewrite Hk. reflexivity. Qed.

Lemma remove_item_nonpositive item_name quantity current self :
  items self !! item_name = Some current →
  leb (default current quantity) zero = true →
  remove_item item_name quantity self = (self, InvalidArgument).
Proof.
  intros Hk Hq. unfold remove_item. rewrite Hk.
  destruct quantity as [q|]; simpl in Hq; rewrite Hq; reflexivity.
Qed.

Lemma remove_item_too_much item_name quantity current self :
  items self !! item_name = Some current →
  leb (default current quantity) zero = false →
  ltb current (default current quantity) = true →
  remove_item item_name quantity self = (self, InsufficientStock).
Proof.
  intros Hk Hq Hlt. unfold remove_item. rewrite Hk.
  destruct quantity as [q|]; simpl in Hq, Hlt; rewrite Hq, Hlt; reflexivity.
Qed.

(** The successful branch, the ledger left as [ota_varastosta] leaves it. *)
Lemma remove_item_enough item_name quantity current self :
  items self !! item_name = Some current →
  leb (default current quantity) zero = false →
  ltb current (default current quantity) = false →
  remove_item item_name quantity self
  = (mkWarehouse
       (Varasto.ota_varastosta (default current quantity) (base self)).1
       (name self)
       (if eqb (sub current (default current quantity)) zero
        then delete item_name (items self)
        else <[item_name := sub current (default current quantity)]> (items self)),
     ok).
Proof.
  intros Hk Hq Hle. unfold remove_item. rewrite Hk.
  replace (match quantity with Some q => q | None => current end)
    with (default current quantity) by (destruct quantity; reflexivity).
  rewrite Hq, Hle.
  destruct (eqb (sub current (default current quantity)) zero).
  - rewrite delete_insert_eq. reflexivity.
  - reflexivity.
Qed.

(** A failed call returns the warehouse it was given. *)
Lemma add_item_failed item_name quantity self w' (e : option string) :
  add_item item_name quantity self = (w', (false, e)) → w' = self.
Proof.
  unfold add_item.
  destruct (leb quantity zero); [congruence|].
  destruct (ltb (paljonko_mahtuu self) quantity); [congruence|].
  discriminate.
Qed.

Lemma remove_item_failed item_name quantity self w' (e : option string) :
  remove_item item_name quantity self = (w', (false, e)) → w' = self.
Proof.
  unfold remove_item.
  destruct (items self !! item_name) as [current|]; [|congruence].
  destruct (leb _ zero); [congruence|].
  destruct (ltb current _); [congruence|].
  discriminate.
Qed.

(** What a call leaves alone, whether it succeeds or fails: the entries of
    the other item names, the name of the warehouse and its capacity. *)
Lemma perform_frame (c : call num) self :
  (∀ other, other ≠ item_of c →
     items (perform c self).1 !! other = items self !! other)
  ∧ name (perform c self).1 = name self
  ∧ tilavuus (perform c self).1 = tilavuus self.
Proof.
  destruct c as [item_name quantity|item_name quantity]; cbn [perform item_of].
  - unfold add_item.
    destruct (leb quantity zero); [done|].
    destruct (ltb (paljonko_mahtuu self) quantity); [done|].
    cbn [fst items name]. unfold tilavuus. cbn [base].
    split; [|split; [reflexivity|apply lisaa_varastoon_tilavuus]].
    intros other Hother.
    destruct (items self !! item_name); apply lookup_insert_ne; congruence.
  - unfold remove_item.
    destruct (items self !! item_name) as [current|]; [|done].
    destruct (leb _ zero); [done|].
    destruct (ltb current _); [done|].
    cbn [fst items name]. unfold tilavuus. cbn [base].
    split; [|split; [reflexivity|apply ota_varastosta_tilavuus]].
    intros other Hother.
    destruct (eqb _ zero).
    + rewrite lookup_delete_ne by congruence. apply lookup_insert_ne; congruence.
    + apply lookup_insert_ne; congruence.
Qed.

End branches.

(** * Exact numbers *)

(** ** Arithmetic on [Qc] *)

Lemma Qc_eq_iff (x y : Qc) : x = y ↔ (this x == this y)%Q.
Proof. split; [intros ->; reflexivity | apply Qc_is_canon]. Qed.

Lemma Qc_neq_iff (x y : Qc) : x ≠ y ↔ ¬ (this x == this y)%Q.
Proof. rewrite Qc_eq_iff. reflexivity. Qed.

(** Linear goals over [Qc], sent to [lra] over [Q]. *)
Ltac qc_to_q :=
  cbn [zero hundred add sub mul div leb ltb eqb Exact.number] in *;
  repeat match goal with
  | H : bool_decide _ = true |- _ => apply bool_decide_eq_true_1 in H
  | H : bool_decide _ = false |- _ => apply bool_decide_eq_false_1 in H
  end;
  repeat match goal with
  | H : @eq Qc _ _ |- _ => apply Qc_eq_iff in H
  | H : not (@eq Qc _ _) |- _ => apply Qc_neq_iff in H
  | |- @eq Qc _ _ => apply Qc_eq_iff
  | |- not (@eq Qc _ _) => apply Qc_neq_iff
  end;
  unfold Qcle, Qclt, Qcminus, Qcplus, Qcopp, Q2Qc in *;
  cbn [this] in *;
  repeat match goal with
  | H : context [Qred ?q] |- _ => rewrite (Qred_correct q) in H
  | |- context [Qred ?q] => rewrite (Qred_correct q)
  end.

Ltac qc_lra := qc_to_q; lra.

(** A test of the source, decided by the order of [Qc]. *)
Ltac qc_test :=
  cbn [zero hundred add sub mul div leb ltb eqb Exact.number];
  first [ apply bool_decide_eq_true_2 | apply bool_decide_eq_false_2 ];
  qc_lra.

(** ** The sum of a mapping *)

Section total.
Implicit Types (m : gmap string Qc) (k : string) (x y : Qc).

Lemma total_empty : total (∅ : gmap string Qc) = 0.
Proof. apply map_fold_empty. Qed.

Lemma total_insert_fresh m k x :
  m !! k = None → total (<[k := x]> m) = x + total m.
Proof.
  intros Hk. unfold total.
  refine (map_fold_insert_L (λ (_ : string) (quantity acc : Qc), add quantity acc)
            zero k x m _ Hk).
  intros ? ? a b acc _ _ _. qc_lra.
Qed.

Lemma total_delete m k x :
  m !! k = Some x → total m = x + total (delete k m).
Proof.
  intros Hk. unfold total.
  refine (map_fold_delete_L (λ (_ : string) (quantity acc : Qc), add quantity acc)
            zero k x m _ Hk).
  intros ? ? a b acc _ _ _. qc_lra.
Qed.

Lemma total_insert_present m k x y :
  m !! k = Some x → total (<[k := y]> m) = total m - x + y.
Proof.
  intros Hk. rewrite <- (insert_delete_eq m k y).
  rewrite total_insert_fresh by apply lookup_delete_eq.
  rewrite (total_delete m k x Hk). qc_lra.
Qed.

Lemma positive_lookup m k x : positive_items m → m !! k = Some x → 0 < x.
Proof.
  intros Hm Hk. pose proof (Hm k x Hk) as Hx.
  cbn [ltb zero Exact.number] in Hx. apply bool_decide_eq_true_1 in Hx. exact Hx.
Qed.

Lemma positive_items_empty : positive_items (∅ : gmap string Qc).
Proof. apply map_Forall_empty. Qed.

Lemma positive_items_insert m k x :
  positive_items m → 0 < x → positive_items (<[k := x]> m).
Proof.
  intros Hm Hx. apply map_Forall_insert_2; [|exact Hm].
  cbn [ltb zero Exact.number]. apply bool_decide_eq_true_2, Hx.
Qed.

Lemma positive_items_delete m k :
  positive_items m → positive_items (delete k m).
Proof. intros Hm. apply map_Forall_delete. exact Hm. Qed.

Lemma total_nonneg m : positive_items m → 0 ≤ total m.
Proof.
  induction m as [|k x m Hk _ IH] using map_first_key_ind.
  - intros _. rewrite total_empty. qc_lra.
  - intros Hm. rewrite total_insert_fresh by exact Hk.
    apply map_Forall_insert in Hm as [Hx Hm]; [|exact Hk].
    specialize (IH Hm). qc_lra.
Qed.

(** No single quantity exceeds the sum of a positive mapping. *)
Lemma lookup_le_total m k x :
  positive_items m → m !! k = Some x → x ≤ total m.
Proof.
  intros Hm Hk. rewrite (total_delete m k x Hk).
  pose proof (total_nonneg _ (positive_items_delete m k Hm)). qc_lra.
Qed.

End total.

(** ** The branches of the two methods, by the order of [Qc] *)

Lemma exact_reserve_within (maara : Qc) (b : Varasto.t Qc) :
  0 < maara → maara ≤ Varasto.paljonko_mahtuu b →
  Varasto.lisaa_varastoon maara b
  = (Varasto.Build (Varasto.tilavuus b) (Varasto.saldo b + maara), None).
Proof.
  intros Hpos Hfree. rewrite reserve_within by qc_test. reflexivity.
Qed.

Lemma exact_release_within (maara : Qc) (b : Varasto.t Qc) :
  0 < maara → maara ≤ Varasto.saldo b →
  Varasto.ota_varastosta maara b
  = (Varasto.Build (Varasto.tilavuus b) (Varasto.saldo b - maara), None).
Proof.
  intros Hpos Hstock. rewrite release_within by qc_test. reflexivity.
Qed.

Section exact_branches.
Variables (item_name : string) (self : Warehouse Qc).

Lemma exact_add_item_nonpositive quantity :
  quantity ≤ 0 → add_item item_name quantity self = (self, InvalidArgument).
Proof. intros Hq. apply add_item_nonpositive. qc_test. Qed.

Lemma exact_add_item_too_much quantity :
  0 < quantity → paljonko_mahtuu self < quantity →
  add_item item_name quantity self = (self, CapacityExceeded).
Proof. intros Hq Hfree. apply add_item_too_much; qc_test. Qed.

(** The successful branch: the balance grows by [quantity] and so does the
    entry of [item_name], counted from [0] when the key is new. *)
Lemma exact_add_item_fits quantity :
  0 < quantity → quantity ≤ paljonko_mahtuu self →
  add_item item_name quantity self
  = (mkWarehouse (Varasto.Build (tilavuus self) (saldo self + quantity))
       (name self)
       (<[item_name := default 0 (items self !! item_name) + quantity]>
          (items self)),
     ok).
Proof.
  intros Hq Hfree. rewrite add_item_fits by qc_test.
  destruct (items self !! item_name) as [current|]; simpl.
  - reflexivity.
  - rewrite Qcplus_0_l. reflexivity.
Qed.

Lemma exact_remove_item_nonpositive quantity current :
  items self !! item_name = Some current →
  default current quantity ≤ 0 →
  remove_item item_name quantity self = (self, InvalidArgument).
Proof.
  intros Hk Hq. apply (remove_item_nonpositive _ _ current); [exact Hk|qc_test].
Qed.

Lemma exact_remove_item_too_much quantity current :
  items self !! item_name = Some current →
  0 < default current quantity → current < default current quantity →
  remove_item item_name quantity self = (self, InsufficientStock).
Proof.
  intros Hk Hq Hlt.
  apply (remove_item_too_much _ _ current); [exact Hk|qc_test..].
Qed.

(** The successful branch, the ledger left as [ota_varastosta] leaves it. *)
Lemma exact_remove_item_enough quantity current :
  items self !! item_name = Some current →
  0 < default current quantity → default current quantity ≤ current →
  remove_item item_name quantity self
  = (mkWarehouse
       (Varasto.ota_varastosta (default current quantity) (base self)).1
       (name self)
       (if decide (current - default current quantity = 0)
        then delete item_name (items self)
        else <[item_name := current - default current quantity]> (items self)),
     ok).
Proof.
  intros Hk Hq Hle.
  rewrite (remove_item_enough _ _ current) by (try exact Hk; qc_test).
  cbn [eqb sub zero Exact.number]. unfold bool_decide.
  destruct (decide_rel eq (current - default current quantity) 0);
    destruct (decide (current - default current quantity = 0));
    first [reflexivity | contradiction].
Qed.

End exact_branches.

(** ** The invariant along a run of exact numbers *)

Lemma init_invariant (n : string) (capacity alku_saldo : Qc) (self : Warehouse Qc) :
  init n capacity alku_saldo = inr self → invariant alku_saldo self.
Proof.
  unfold init, Varasto.init. cbn [leb ltb zero Exact.number]. intros Hinit.
  repeat case_bool_decide; try discriminate.
  injection Hinit as <-. unfold invariant, saldo, tilavuus.
  cbn [base items Varasto.saldo Varasto.tilavuus].
  rewrite total_empty.
  repeat split; [qc_lra | qc_lra | apply positive_items_empty | qc_lra | qc_lra].
Qed.

Lemma add_item_invariant (alku_saldo : Qc) (item_name : string) quantity (self : Warehouse Qc) :
  invariant alku_saldo self →
  invariant alku_saldo (add_item item_name quantity self).1.
Proof.
  intros Hinv.
  destruct (decide (quantity ≤ 0)) as [Hle|Hpos].
  { rewrite exact_add_item_nonpositive by exact Hle. exact Hinv. }
  destruct (decide (paljonko_mahtuu self < quantity)) as [Hlt|Hfree].
  { rewrite exact_add_item_too_much by (try exact Hlt; qc_lra). exact Hinv. }
  rewrite exact_add_item_fits by qc_lra.
  destruct Hinv as (Ha & Hsum & Hitems & Hlo & Hhi).
  unfold invariant, saldo, tilavuus, paljonko_mahtuu, Varasto.paljonko_mahtuu in *.
  cbn [fst base items Varasto.saldo Varasto.tilavuus].
  destruct (items self !! item_name) as [current|] eqn:Hk; simpl.
  - pose proof (positive_lookup _ _ _ Hitems Hk) as Hcur.
    rewrite (total_insert_present _ _ current) by exact Hk.
    repeat split; [qc_lra | qc_lra | | qc_lra | qc_lra].
    apply positive_items_insert; [exact Hitems | qc_lra].
  - rewrite total_insert_fresh by exact Hk.
    repeat split; [qc_lra | qc_lra | | qc_lra | qc_lra].
    apply positive_items_insert; [exact Hitems | qc_lra].
Qed.

Lemma remove_item_invariant (alku_saldo : Qc) (item_name : string) quantity (self : Warehouse Qc) :
  invariant alku_saldo self →
  invariant alku_saldo (remove_item item_name quantity self).1.
Proof.
  intros Hinv.
  destruct (items self !! item_name) as [current|] eqn:Hk;
    [|rewrite remove_item_absent by exact Hk; exact Hinv].
  destruct (decide (default current quantity ≤ 0)) as [Hle|Hpos].
  { rewrite (exact_remove_item_nonpositive _ _ _ current) by assumption. exact Hinv. }
  destruct (decide (current < default current quantity)) as [Hlt|Hstock].
  { rewrite (exact_remove_item_too_much _ _ _ current) by (try assumption; qc_lra).
    exact Hinv. }
  rewrite (exact_remove_item_enough _ _ _ current) by (try assumption; qc_lra).
  destruct Hinv as (Ha & Hsum & Hitems & Hlo & Hhi).
  pose proof (lookup_le_total _ _ _ Hitems Hk) as Hcur.
  unfold invariant, saldo, tilavuus in *.
  set (q := default current quantity) in *.
  rewrite exact_release_within by qc_lra.
  cbn [fst base items Varasto.saldo Varasto.tilavuus].
  destruct (decide (current - q = 0)) as [Hzero|Hrest].
  - pose proof (total_delete _ _ _ Hk) as Hdel.
    repeat split; [qc_lra | qc_lra | | qc_lra | qc_lra].
    apply positive_items_delete; exact Hitems.
  - rewrite (total_insert_present _ _ current) by exact Hk.
    repeat split; [qc_lra | qc_lra | | qc_lra | qc_lra].
    apply positive_items_insert; [exact Hitems | qc_lra].
Qed.

Lemma perform_invariant (alku_saldo : Qc) (c : call Qc) (self : Warehouse Qc) :
  invariant alku_saldo self → invariant alku_saldo (perform c self).1.
Proof.
  destruct c; [apply add_item_invariant | apply remove_item_invariant].
Qed.

Lemma run_invariant (alku_saldo : Qc) (cs : list (call Qc)) (self : Warehouse Qc) :
  invariant alku_saldo self → invariant alku_saldo (run cs self).
Proof.
  revert self. induction cs as [|c cs IH]; intros self Hinv; [exact Hinv|].
  apply IH, perform_invariant, Hinv.
Qed.

Lemma invariant_consistent (alku_saldo : Qc) (self : Warehouse Qc) :
  invariant alku_saldo self → consistent self.
Proof.
  intros (Ha & Hsum & Hitems & Hlo & Hhi).
  repeat split; [exact Hitems | qc_lra | exact Hhi].
Qed.

(** Every state a warehouse can reach through its constructor and its two
    item methods is consistent. *)
Lemma run_consistent
    (n : string) (capacity alku_saldo : Qc) (fresh : Warehouse Qc) (cs : list (call Qc)) :
  init n capacity alku_saldo = inr fresh → consistent (run cs fresh).
Proof.
  intros Hinit. apply (invariant_consistent alku_saldo).
  apply run_invariant, (init_invariant _ _ _ _ Hinit).
Qed.

(** In a consistent state, and so in every state reached on exact numbers,
    the balance is not negative and every stored quantity is positive and
    covered by the balance. *)
Lemma consistent_stored (self : Warehouse Qc) (item_name : string) (stored : Qc) :
  consistent self → items self !! item_name = Some stored →
  0 < stored ∧ stored ≤ saldo self ∧ 0 ≤ saldo self.
Proof.
  intros (Hitems & Hsum & _) Hk.
  pose proof (positive_lookup _ _ _ Hitems Hk) as Hpos.
  pose proof (lookup_le_total _ _ _ Hitems Hk) as Hle.
  repeat split; qc_lra.
Qed.

Lemma consistent_saldo (self : Warehouse Qc) : consistent self → 0 ≤ saldo self.
Proof.
  intros (Hitems & Hsum & _). pose proof (total_nonneg _ Hitems). qc_lra.
Qed.

(** ** The scenarios of the spec, evaluated on exact numbers *)

Example scenario_1 :
  init "varasto" (Qc_of_Z 100) 0 = inr varasto_100
  ∧ (add_item "bolt" (Qc_of_Z 30) varasto_100).2 = ok
  ∧ this (saldo with_30_bolts) = 30%Q
  ∧ this (paljonko_mahtuu with_30_bolts) = 70%Q.
Proof. repeat split; vm_compute; reflexivity. Qed.

Example scenario_2 :
  add_item "bolt" (Qc_of_Z 80) with_30_bolts = (with_30_bolts, CapacityExceeded).
Proof. apply add_item_too_much; vm_compute; reflexivity. Qed.

Example scenario_3 :
  (remove_item "bolt" (Some (Qc_of_Z 30)) with_30_bolts).2 = ok
  ∧ items (run scenario_1_2_3 varasto_100) = ∅
  ∧ this (saldo (run scenario_1_2_3 varasto_100)) = 0%Q.
Proof. repeat split; vm_compute; reflexivity. Qed.


(** * The claims *)

(** C1, as stated, does not hold.  On exact numbers, a warehouse may be
    created with an initial balance ([alku_saldo], passed on to the ledger),
    which no item accounts for: [Warehouse("varasto", 100, 30)] followed by
    [add_item("bolt", 10)] has a balance of 40 and items that sum to 10.  On
    floats, rounding separates the balance from the items:
    [Warehouse("varasto", 1.0)], 0.1 of one item and 0.2 of another added
    and both removed, ends with no item and a balance that is not 0; and
    [add_item("bolt", nan)] passes both guards and stores a quantity that
    is not positive. *)
Lemma C1_initial_balance_counterexample :
  (init "varasto" (Qc_of_Z 100) (Qc_of_Z 30) = inr varasto_100_30
   ∧ saldo (run [AddItem "bolt" (Qc_of_Z 10)] varasto_100_30) = Qc_of_Z 40
   ∧ total (items (run [AddItem "bolt" (Qc_of_Z 10)] varasto_100_30)) = Qc_of_Z 10
   ∧ total (items (run [AddItem "bolt" (Qc_of_Z 10)] varasto_100_30))
     ≠ saldo (run [AddItem "bolt" (Qc_of_Z 10)] varasto_100_30))
  ∧ (init "varasto" (Binary64.of_Z 1) zero = inr float_varasto_1
     ∧ items float_emptied = ∅
     ∧ total (items float_emptied) = zero
     ∧ eqb (total (items float_emptied)) (saldo float_emptied) = false)
  ∧ (init "varasto" (Binary64.of_Z 100) zero = inr float_varasto_100
     ∧ (add_item "bolt" Binary64.nan float_varasto_100).2 = ok
     ∧ items float_with_nan_bolts !! "bolt"%string = Some Binary64.nan
     ∧ ltb zero Binary64.nan = false).
Proof.
  split; [|split].
  - split; [vm_compute; reflexivity|].
    split; [apply Qc_is_canon; vm_compute; reflexivity|].
    split; [apply Qc_is_canon; vm_compute; reflexivity|].
    apply Qc_neq_iff. vm_compute. discriminate.
  - repeat split; vm_compute; reflexivity.
  - repeat split; vm_compute; reflexivity.
Qed.

(** C1 (amended): on exact numbers, in every state reachable from a
    warehouse freshly created with initial balance [alku_saldo] (0 unless
    given) by any sequence of [add_item] and [remove_item] calls, successful
    or failed, the quantities of the items mapping plus [alku_saldo] sum to
    the balance [saldo], every key maps to a strictly positive quantity, and
    [0 <= saldo <= tilavuus]. *)
Theorem C1_reachable_invariant
    (n : string) (capacity alku_saldo : Qc) (fresh : Warehouse Qc)
    (cs : list (call Qc)) :
  init n capacity alku_saldo = inr fresh →
  total (items (run cs fresh)) + alku_saldo = saldo (run cs fresh)
  ∧ positive_items (items (run cs fresh))
  ∧ 0 ≤ saldo (run cs fresh) ≤ tilavuus (run cs fresh).
Proof.
  intros Hinit.
  apply (run_invariant alku_saldo cs fresh (init_invariant _ _ _ _ Hinit)).
Qed.

(** Created with a balance of 30; 10 bolts added, 4 of them removed. *)
Lemma C1_reachable_invariant_witness :
  total (items (run [AddItem "bolt" (Qc_of_Z 10);
                     RemoveItem "bolt" (Some (Qc_of_Z 4))] varasto_100_30))
  + Qc_of_Z 30
  = saldo (run [AddItem "bolt" (Qc_of_Z 10);
                RemoveItem "bolt" (Some (Qc_of_Z 4))] varasto_100_30)
  ∧ positive_items
      (items (run [AddItem "bolt" (Qc_of_Z 10);
                   RemoveItem "bolt" (Some (Qc_of_Z 4))] varasto_100_30))
  ∧ 0 ≤ saldo (run [AddItem "bolt" (Qc_of_Z 10);
                    RemoveItem "bolt" (Some (Qc_of_Z 4))] varasto_100_30)
      ≤ tilavuus (run [AddItem "bolt" (Qc_of_Z 10);
                       RemoveItem "bolt" (Some (Qc_of_Z 4))] varasto_100_30).
Proof.
  apply (C1_reachable_invariant "varasto" (Qc_of_Z 100) (Qc_of_Z 30) varasto_100_30
           [AddItem "bolt" (Qc_of_Z 10); RemoveItem "bolt" (Some (Qc_of_Z 4))]).
  vm_compute. reflexivity.
Defined.

(** With the default [alku_saldo = 0], on exact numbers, the sum of the
    quantities is the balance itself. *)
Corollary default_reachable_invariant
    (n : string) (capacity : Qc) (fresh : Warehouse Qc) (cs : list (call Qc)) :
  init n capacity 0 = inr fresh →
  total (items (run cs fresh)) = saldo (run cs fresh)
  ∧ positive_items (items (run cs fresh))
  ∧ 0 ≤ saldo (run cs fresh) ≤ tilavuus (run cs fresh).
Proof.
  intros Hinit.
  destruct (run_invariant 0 cs fresh (init_invariant _ _ _ _ Hinit))
    as (_ & Hsum & Hrest).
  split; [|exact Hrest]. rewrite <- Hsum. symmetry. apply Qcplus_0_r.
Qed.

(** C2: whenever [add_item] or [remove_item] fails, the warehouse (items,
    balance, capacity and name) is exactly what it was before the call,
    whatever the numbers. *)
Theorem C2_failure_changes_nothing
    {num : Type} `{Number num} (c : call num) (self : Warehouse num) :
  failed (perform c self).2 → (perform c self).1 = self.
Proof.
  unfold failed. destruct c as [item_name quantity|item_name quantity]; cbn [perform].
  - unfold add_item.
    destruct (leb quantity zero); [reflexivity|].
    destruct (ltb (paljonko_mahtuu self) quantity); [reflexivity|].
    cbn. discriminate.
  - unfold remove_item.
    destruct (items self !! item_name) as [current|]; [|reflexivity].
    destruct (leb _ zero); [reflexivity|].
    destruct (ltb current _); [reflexivity|].
    cbn. discriminate.
Qed.

(** Scenario 2, on floats: [add_item("bolt", 80.0)] with 30.0 of 100.0
    occupied. *)
Lemma C2_failure_changes_nothing_witness :
  (perform (AddItem "bolt" (Binary64.of_Z 80)) float_with_30_bolts).1
  = float_with_30_bolts.
Proof.
  apply (C2_failure_changes_nothing (AddItem "bolt" (Binary64.of_Z 80))
           float_with_30_bolts).
  vm_compute. reflexivity.
Defined.

(** C3, as stated, does not hold.  On floats, with 0.1 bolts in a warehouse
    of capacity 1.0, [add_item("bolt", 0.2)] and [remove_item("bolt", 0.2)]
    both succeed and leave 0.10000000000000003 bolts and as much balance.
    On exact numbers, in states no call produces: with an entry of 0,
    adding and removing 5 of it deletes the entry; with a balance of -1,
    the ledger refuses to release the 5 just added and the balance ends
    at 4. *)
Lemma C3_round_trip_counterexample :
  (ltb zero (Binary64.tenths 2) = true
   ∧ leb (Binary64.tenths 2) (paljonko_mahtuu float_with_a_tenth) = true
   ∧ (add_item "bolt" (Binary64.tenths 2) float_with_a_tenth).2 = ok
   ∧ (remove_item "bolt" (Some (Binary64.tenths 2))
        (add_item "bolt" (Binary64.tenths 2) float_with_a_tenth).1).2 = ok
   ∧ items float_with_a_tenth !! "bolt"%string
     = Some (S754_finite false 7205759403792794 (-56))
   ∧ items (remove_item "bolt" (Some (Binary64.tenths 2))
              (add_item "bolt" (Binary64.tenths 2) float_with_a_tenth).1).1
       !! "bolt"%string
     = Some (S754_finite false 7205759403792796 (-56))
   ∧ eqb (saldo (remove_item "bolt" (Some (Binary64.tenths 2))
                   (add_item "bolt" (Binary64.tenths 2) float_with_a_tenth).1).1)
         (saldo float_with_a_tenth) = false)
  ∧ (items with_no_bolts_listed !! "bolt"%string = Some 0
     ∧ (add_item "bolt" (Qc_of_Z 5) with_no_bolts_listed).2 = ok
     ∧ (remove_item "bolt" (Some (Qc_of_Z 5))
          (add_item "bolt" (Qc_of_Z 5) with_no_bolts_listed).1).2 = ok
     ∧ items (remove_item "bolt" (Some (Qc_of_Z 5))
                (add_item "bolt" (Qc_of_Z 5) with_no_bolts_listed).1).1
         !! "bolt"%string = None)
  ∧ (saldo with_negative_balance = - 1
     ∧ (add_item "bolt" (Qc_of_Z 5) with_negative_balance).2 = ok
     ∧ (remove_item "bolt" (Some (Qc_of_Z 5))
          (add_item "bolt" (Qc_of_Z 5) with_negative_balance).1).2 = ok
     ∧ this (saldo (remove_item "bolt" (Some (Qc_of_Z 5))
                      (add_item "bolt" (Qc_of_Z 5) with_negative_balance).1).1)
       = 4%Q).
Proof. split; [|split]; repeat split; vm_compute; reflexivity. Qed.

(** C3 (amended): on exact numbers, in every warehouse state with a balance
    that is not negative, for every item name whose stored quantity, if any,
    is positive (as in every state reached on exact numbers,
    [run_consistent] and [consistent_stored]) and every quantity with
    [0 < quantity <= free space], [add_item] followed by [remove_item] of
    the same name and quantity both succeed and give back the prior items
    mapping and the prior balance. *)
Theorem C3_add_then_remove (item_name : string) (quantity : Qc) (self : Warehouse Qc) :
  (∀ stored, items self !! item_name = Some stored → 0 < stored) →
  0 ≤ saldo self →
  0 < quantity → quantity ≤ paljonko_mahtuu self →
  (add_item item_name quantity self).2 = ok
  ∧ (remove_item item_name (Some quantity) (add_item item_name quantity self).1).2 = ok
  ∧ items (remove_item item_name (Some quantity)
             (add_item item_name quantity self).1).1 = items self
  ∧ saldo (remove_item item_name (Some quantity)
             (add_item item_name quantity self).1).1 = saldo self.
Proof.
  intros Hstored Hnonneg Hq Hfree.
  rewrite exact_add_item_fits by assumption. cbn [fst snd].
  split; [reflexivity|].
  set (current := default 0 (items self !! item_name)).
  assert (0 ≤ current) as Hcur.
  { subst current. destruct (items self !! item_name) as [x|] eqn:Hk; simpl.
    - pose proof (Hstored x eq_refl) as Hx. qc_lra.
    - qc_lra. }
  rewrite (exact_remove_item_enough _ _ _ (current + quantity));
    [|apply lookup_insert_eq|simpl; exact Hq|simpl; qc_lra].
  cbn [fst snd items base default from_option id].
  split; [reflexivity|].
  rewrite exact_release_within by (cbn [Varasto.saldo]; qc_lra).
  unfold saldo. cbn [fst base Varasto.saldo].
  split; [|qc_lra].
  destruct (decide (current + quantity - quantity = 0)) as [Hzero|Hrest].
  - rewrite delete_insert_eq. apply delete_id.
    subst current. destruct (items self !! item_name) as [x|] eqn:Hk; [|reflexivity].
    exfalso. pose proof (Hstored x eq_refl) as Hx. simpl in Hzero. qc_lra.
  - rewrite insert_insert_eq. apply insert_id.
    subst current. destruct (items self !! item_name) as [x|] eqn:Hk; simpl in *.
    + f_equal. qc_lra.
    + exfalso. apply Hrest. qc_lra.
Qed.

(** With 30 bolts of 100 stored: 20 more bolts added and removed. *)
Lemma C3_add_then_remove_witness :
  (add_item "bolt" (Qc_of_Z 20) with_30_bolts).2 = ok
  ∧ (remove_item "bolt" (Some (Qc_of_Z 20))
       (add_item "bolt" (Qc_of_Z 20) with_30_bolts).1).2 = ok
  ∧ items (remove_item "bolt" (Some (Qc_of_Z 20))
             (add_item "bolt" (Qc_of_Z 20) with_30_bolts).1).1 = items with_30_bolts
  ∧ saldo (remove_item "bolt" (Some (Qc_of_Z 20))
             (add_item "bolt" (Qc_of_Z 20) with_30_bolts).1).1 = saldo with_30_bolts.
Proof.
  apply (C3_add_then_remove "bolt" (Qc_of_Z 20) with_30_bolts).
  - intros stored Hstored. vm_compute in Hstored. injection Hstored as <-.
    vm_compute. reflexivity.
  - vm_compute. discriminate.
  - vm_compute. reflexivity.
  - vm_compute. discriminate.
Defined.










(** C7: for every warehouse state and every quantity argument (absent, zero,
    negative or positive, NaN included), [remove_item] on a name that is not
    a key of the items mapping fails with [NotFound] and leaves the state as
    it was: the lookup comes before any look at the quantity. *)
Theorem C7_remove_absent
    {num : Type} `{Number num}
    (item_name : string) (quantity : option num) (self : Warehouse num) :
  items self !! item_name = None →
  remove_item item_name quantity self = (self, NotFound).
Proof. apply remove_item_absent. Qed.

(** Scenario 4, on floats: [remove_item("nail")] where only bolts are
    stored; and the same with a NaN for quantity. *)
Lemma C7_remove_absent_witness :
  remove_item "nail" None float_with_30_bolts = (float_with_30_bolts, NotFound)
  ∧ remove_item "nail" (Some Binary64.nan) float_with_30_bolts
    = (float_with_30_bolts, NotFound).
Proof.
  split.
  - apply (C7_remove_absent "nail" None float_with_30_bolts).
    vm_compute. reflexivity.
  - apply (C7_remove_absent "nail" (Some Binary64.nan) float_with_30_bolts).
    vm_compute. reflexivity.
Defined.

(** C8: [get_space_left_percent] returns 0 when the capacity [== 0] and
    [(paljonko_mahtuu() / tilavuus) * 100] otherwise, computed with the
    division and the multiplication of the numbers at hand, and leaves the
    warehouse as it was. *)
Theorem C8_space_left_percent
    {num : Type} `{Number num} (self : Warehouse num) :
  (eqb (tilavuus self) zero = true → (get_space_left_percent self).2 = zero)
  ∧ (eqb (tilavuus self) zero = false →
     (get_space_left_percent self).2
     = mul (div (paljonko_mahtuu self) (tilavuus self)) hundred)
  ∧ (get_space_left_percent self).1 = self.
Proof.
  unfold get_space_left_percent.
  destruct (eqb (tilavuus self) zero); cbn [fst snd].
  - split; [reflexivity|]. split; [discriminate|reflexivity].
  - split; [discriminate|]. split; reflexivity.
Qed.

(** On floats, with 93.0 of 100.0 occupied, the value is
    7.000000000000001. *)
Lemma C8_space_left_percent_witness :
  get_space_left_percent float_with_93_bolts
  = (float_with_93_bolts, S754_finite false 7881299347898369 (-50)).
Proof.
  destruct (C8_space_left_percent float_with_93_bolts) as (_ & Hvalue & Hstate).
  rewrite (surjective_pairing (get_space_left_percent float_with_93_bolts)).
  rewrite Hstate, Hvalue by (vm_compute; reflexivity).
  f_equal.
Defined.

(** C9: when every stored quantity is positive, [remove_item] without a
    quantity succeeds for every item name present in the items mapping; it
    returns neither [InvalidArgument] nor [InsufficientStock].  This holds
    whatever the numbers, floats included. *)
Theorem C9_remove_all_succeeds
    {num : Type} `{NumberLaws num} (item_name : string) (self : Warehouse num) :
  positive_items (items self) →
  is_Some (items self !! item_name) →
  (remove_item item_name None self).2 = ok.
Proof.
  intros Hitems [current Hk].
  pose proof (Hitems _ _ Hk) as Hcur. cbn beta in Hcur.
  rewrite (remove_item_enough _ _ current);
    [reflexivity|exact Hk|apply positive_not_leb, Hcur|apply ltb_irrefl].
Qed.

Lemma C9_remove_all_succeeds_witness :
  (remove_item "bolt" None float_with_30_bolts).2 = ok
  ∧ (remove_item "bolt" None with_30_bolts).2 = ok.
Proof.
  split.
  - apply (C9_remove_all_succeeds "bolt" float_with_30_bolts).
    + apply (bool_decide_unpack (positive_items _)). vm_compute. reflexivity.
    + apply (bool_decide_unpack (is_Some _)). vm_compute. reflexivity.
  - apply (C9_remove_all_succeeds "bolt" with_30_bolts).
    + apply (bool_decide_unpack (positive_items _)). vm_compute. reflexivity.
    + apply (bool_decide_unpack (is_Some _)). vm_compute. reflexivity.
Defined.

(** C10: [add_item] fails if and only if [quantity <= 0] or [quantity]
    exceeds the free space.  The item name is never looked at: with the
    empty string as name and a quantity that passes both tests, [add_item]
    succeeds and the quantity is stored under the empty-string key, added to
    what the key held before, if anything. *)
Theorem C10_add_item_fails_iff
    {num : Type} `{Number num}
    (item_name : string) (quantity : num) (self : Warehouse num) :
  (failed (add_item item_name quantity self).2
   ↔ leb quantity zero = true ∨ ltb (paljonko_mahtuu self) quantity = true)
  ∧ (leb quantity zero = false → ltb (paljonko_mahtuu self) quantity = false →
     (add_item "" quantity self).2 = ok
     ∧ items (add_item "" quantity self).1 !! ""%string
       = Some match items self !! ""%string with
              | Some current => add current quantity
              | None => quantity
              end
     ∧ (items self !! ""%string = None →
        items (add_item "" quantity self).1 !! ""%string = Some quantity)).
Proof.
  split.
  - unfold failed. split.
    + intros Hfail.
      destruct (leb quantity zero) eqn:Hle; [left; reflexivity|].
      destruct (ltb (paljonko_mahtuu self) quantity) eqn:Hlt; [right; reflexivity|].
      rewrite add_item_fits in Hfail by assumption. discriminate Hfail.
    + intros [Hle|Hlt].
      * rewrite add_item_nonpositive by exact Hle. reflexivity.
      * destruct (leb quantity zero) eqn:Hle.
        -- rewrite add_item_nonpositive by exact Hle. reflexivity.
        -- rewrite add_item_too_much by assumption. reflexivity.
  - intros Hpos Hfree. rewrite add_item_fits by assumption.
    cbn [fst snd items]. split; [reflexivity|].
    destruct (items self !! ""%string) as [current|] eqn:Hk.
    + rewrite lookup_insert_eq. split; [reflexivity|discriminate].
    + rewrite lookup_insert_eq. split; reflexivity.
Qed.

Lemma C10_add_item_fails_iff_witness :
  (add_item "" (Binary64.of_Z 5) float_with_30_bolts).2 = ok
  ∧ items (add_item "" (Binary64.of_Z 5) float_with_30_bolts).1 !! ""%string
    = Some (Binary64.of_Z 5).
Proof.
  destruct (C10_add_item_fails_iff "" (Binary64.of_Z 5) float_with_30_bolts)
    as [_ Hempty].
  destruct Hempty as (Hok & _ & Hstored).
  - vm_compute. reflexivity.
  - vm_compute. reflexivity.
  - split; [exact Hok|]. apply Hstored. vm_compute. reflexivity.
Defined.

(** * Further properties of [Warehouse] *)

(** A warehouse is the record of its four attributes. *)
Lemma Warehouse_eq {num : Type} (w1 w2 : Warehouse num) :
  tilavuus w1 = tilavuus w2 → saldo w1 = saldo w2 →
  name w1 = name w2 → items w1 = items w2 → w1 = w2.
Proof.
  destruct w1 as [[t1 s1] n1 m1], w2 as [[t2 s2] n2 m2].
  unfold tilavuus, saldo. cbn. intros -> -> -> ->. reflexivity.
Qed.

(** X1: whatever it returns and whatever the numbers, a call of [add_item]
    or [remove_item] changes no entry of the items mapping other than the
    one of its item name, and neither the name nor the capacity of the
    warehouse. *)
Theorem X1_other_items_untouched
    {num : Type} `{Number num}
    (c : call num) (other : string) (self : Warehouse num) :
  other ≠ item_of c →
  items (perform c self).1 !! other = items self !! other
  ∧ name (perform c self).1 = name self
  ∧ tilavuus (perform c self).1 = tilavuus self.
Proof.
  intros Hother. destruct (perform_frame c self) as (Hitems & Hname & Hcap).
  split; [apply Hitems, Hother|split; assumption].
Qed.

Lemma X1_other_items_untouched_witness :
  items (perform (RemoveItem "bolt" None) float_with_30_bolts).1 !! "nail"%string
  = items float_with_30_bolts !! "nail"%string
  ∧ name (perform (RemoveItem "bolt" None) float_with_30_bolts).1
    = name float_with_30_bolts
  ∧ tilavuus (perform (RemoveItem "bolt" None) float_with_30_bolts).1
    = tilavuus float_with_30_bolts.
Proof.
  apply (X1_other_items_untouched (RemoveItem "bolt" None) "nail"
           float_with_30_bolts).
  vm_compute. discriminate.
Defined.

(** X2: on exact numbers, two successive [add_item] calls for the same
    name, with positive quantities that fit together, both succeed and leave
    the warehouse exactly as one call with the sum of the quantities
    does. *)
Theorem X2_add_twice_is_add_sum
    (item_name : string) (q1 q2 : Qc) (self : Warehouse Qc) :
  0 < q1 → 0 < q2 → q1 + q2 ≤ paljonko_mahtuu self →
  (add_item item_name q1 self).2 = ok
  ∧ add_item item_name q2 (add_item item_name q1 self).1
    = add_item item_name (q1 + q2) self
  ∧ (add_item item_name (q1 + q2) self).2 = ok.
Proof.
  intros Hq1 Hq2 Hfree.
  rewrite (exact_add_item_fits item_name self q1) by qc_lra.
  rewrite (exact_add_item_fits item_name self (q1 + q2)) by qc_lra.
  cbn [fst snd]. split; [reflexivity|]. split; [|reflexivity].
  rewrite exact_add_item_fits;
    [|exact Hq2
     |unfold paljonko_mahtuu, Varasto.paljonko_mahtuu in *;
      cbn [base Varasto.tilavuus Varasto.saldo]; unfold tilavuus, saldo; qc_lra].
  f_equal. apply Warehouse_eq; unfold tilavuus, saldo;
    cbn [base name items Varasto.tilavuus Varasto.saldo].
  - reflexivity.
  - qc_lra.
  - reflexivity.
  - rewrite lookup_insert_eq, insert_insert_eq. simpl. f_equal. qc_lra.
Qed.

Lemma X2_add_twice_is_add_sum_witness :
  (add_item "bolt" (Qc_of_Z 20) with_30_bolts).2 = ok
  ∧ add_item "bolt" (Qc_of_Z 50) (add_item "bolt" (Qc_of_Z 20) with_30_bolts).1
    = add_item "bolt" (Qc_of_Z 20 + Qc_of_Z 50) with_30_bolts
  ∧ (add_item "bolt" (Qc_of_Z 20 + Qc_of_Z 50) with_30_bolts).2 = ok.
Proof.
  apply (X2_add_twice_is_add_sum "bolt" (Qc_of_Z 20) (Qc_of_Z 50) with_30_bolts).
  - vm_compute. reflexivity.
  - vm_compute. reflexivity.
  - vm_compute. discriminate.
Defined.

(** X3: on exact numbers, [add_item] calls for two different names, with
    positive quantities that fit together, succeed in either order and give
    the same warehouse.  (On floats the two balances may differ in the last
    place.) *)
Theorem X3_adds_commute (x y : string) (qx qy : Qc) (self : Warehouse Qc) :
  x ≠ y → 0 < qx → 0 < qy → qx + qy ≤ paljonko_mahtuu self →
  add_item y qy (add_item x qx self).1 = add_item x qx (add_item y qy self).1
  ∧ (add_item x qx self).2 = ok
  ∧ (add_item y qy (add_item x qx self).1).2 = ok.
Proof.
  intros Hxy Hqx Hqy Hfree.
  rewrite (exact_add_item_fits x self qx) by qc_lra.
  rewrite (exact_add_item_fits y self qy) by qc_lra.
  cbn [fst snd].
  rewrite (exact_add_item_fits y);
    [|exact Hqy
     |unfold paljonko_mahtuu, Varasto.paljonko_mahtuu in *;
      cbn [base Varasto.tilavuus Varasto.saldo]; unfold tilavuus, saldo; qc_lra].
  rewrite (exact_add_item_fits x);
    [|exact Hqx
     |unfold paljonko_mahtuu, Varasto.paljonko_mahtuu in *;
      cbn [base Varasto.tilavuus Varasto.saldo]; unfold tilavuus, saldo; qc_lra].
  cbn [fst snd]. split; [|split; reflexivity].
  f_equal. apply Warehouse_eq; unfold tilavuus, saldo;
    cbn [base name items Varasto.tilavuus Varasto.saldo].
  - reflexivity.
  - qc_lra.
  - reflexivity.
  - rewrite !lookup_insert_ne by congruence. apply insert_insert_ne. congruence.
Qed.

Lemma X3_adds_commute_witness :
  add_item "nail" (Qc_of_Z 50) (add_item "bolt" (Qc_of_Z 20) with_30_bolts).1
  = add_item "bolt" (Qc_of_Z 20) (add_item "nail" (Qc_of_Z 50) with_30_bolts).1
  ∧ (add_item "bolt" (Qc_of_Z 20) with_30_bolts).2 = ok
  ∧ (add_item "nail" (Qc_of_Z 50) (add_item "bolt" (Qc_of_Z 20) with_30_bolts).1).2
    = ok.
Proof.
  apply (X3_adds_commute "bolt" "nail" (Qc_of_Z 20) (Qc_of_Z 50) with_30_bolts).
  - vm_compute. discriminate.
  - vm_compute. reflexivity.
  - vm_compute. reflexivity.
  - vm_compute. discriminate.
Defined.

(** X4: on exact numbers, in a consistent warehouse, removing a stored item
    in two positive parts that together do not exceed the stored quantity
    succeeds twice and leaves the warehouse exactly as one [remove_item] of
    the whole amount does.  (On floats the second part may be refused, or a
    different quantity be left.) *)
Theorem X4_remove_in_parts
    (item_name : string) (current q1 q2 : Qc) (self : Warehouse Qc) :
  consistent self →
  items self !! item_name = Some current →
  0 < q1 → 0 < q2 → q1 + q2 ≤ current →
  (remove_item item_name (Some q1) self).2 = ok
  ∧ remove_item item_name (Some q2) (remove_item item_name (Some q1) self).1
    = remove_item item_name (Some (q1 + q2)) self
  ∧ (remove_item item_name (Some (q1 + q2)) self).2 = ok.
Proof.
  intros (Hitems & Hsum & Hhi) Hk Hq1 Hq2 Hle.
  pose proof (lookup_le_total _ _ _ Hitems Hk) as Hcur.
  unfold saldo in *.
  rewrite (exact_remove_item_enough item_name self (Some q1) current)
    by (try exact Hk; simpl; qc_lra).
  rewrite (exact_remove_item_enough item_name self (Some (q1 + q2)) current)
    by (try exact Hk; simpl; qc_lra).
  cbn [fst snd default from_option id].
  split; [reflexivity|]. split; [|reflexivity].
  rewrite !exact_release_within by qc_lra. cbn [fst].
  destruct (decide (current - q1 = 0)) as [Hzero|_]; [exfalso; qc_lra|].
  rewrite (exact_remove_item_enough _ _ _ (current - q1));
    [|apply lookup_insert_eq|simpl; exact Hq2|simpl; qc_lra].
  cbn [fst snd default from_option id base name items].
  rewrite exact_release_within by (cbn [Varasto.saldo]; qc_lra).
  cbn [fst Varasto.tilavuus Varasto.saldo].
  replace (current - q1 - q2) with (current - (q1 + q2)) by qc_lra.
  replace (Varasto.saldo (base self) - q1 - q2)
    with (Varasto.saldo (base self) - (q1 + q2)) by qc_lra.
  f_equal. f_equal.
  destruct (decide (current - (q1 + q2) = 0)).
  - apply delete_insert_eq.
  - apply insert_insert_eq.
Qed.

Lemma X4_remove_in_parts_witness :
  (remove_item "bolt" (Some (Qc_of_Z 10)) with_30_bolts).2 = ok
  ∧ remove_item "bolt" (Some (Qc_of_Z 20))
      (remove_item "bolt" (Some (Qc_of_Z 10)) with_30_bolts).1
    = remove_item "bolt" (Some (Qc_of_Z 10 + Qc_of_Z 20)) with_30_bolts
  ∧ (remove_item "bolt" (Some (Qc_of_Z 10 + Qc_of_Z 20)) with_30_bolts).2 = ok.
Proof.
  apply (X4_remove_in_parts "bolt" (Qc_of_Z 30) (Qc_of_Z 10) (Qc_of_Z 20)
           with_30_bolts).
  - split; [|split].
    + apply (bool_decide_unpack (positive_items _)). vm_compute. reflexivity.
    + vm_compute. discriminate.
    + vm_compute. discriminate.
  - vm_compute. reflexivity.
  - vm_compute. reflexivity.
  - vm_compute. reflexivity.
  - vm_compute. discriminate.
Defined.


(** X5: [add_item] raises the item count by one exactly when it succeeds
    for a name that was not stored; a failed call, and a successful call for
    a stored name, leave the count as it was, whatever the numbers. *)
Theorem X5_add_item_count
    {num : Type} `{Number num}
    (item_name : string) (quantity : num) (self : Warehouse num) :
  get_item_count (add_item item_name quantity self).1
  = if bool_decide ((add_item item_name quantity self).2 = ok
                    ∧ items self !! item_name = None)
    then S (get_item_count self)
    else get_item_count self.
Proof.
  unfold get_item_count, add_item.
  destruct (leb quantity zero);
    [rewrite bool_decide_eq_false_2 by (intros [? _]; discriminate); reflexivity|].
  destruct (ltb (paljonko_mahtuu self) quantity);
    [rewrite bool_decide_eq_false_2 by (intros [? _]; discriminate); reflexivity|].
  cbn [fst snd items].
  destruct (items self !! item_name) as [current|] eqn:Hk.
  - rewrite bool_decide_eq_false_2 by (intros [_ ?]; discriminate).
    apply map_size_insert_Some. eauto.
  - rewrite bool_decide_eq_true_2 by done.
    apply map_size_insert_None, Hk.
Qed.

(** X6: after a successful [remove_item] of a stored item, the item count
    is one less exactly when what is left of the stored quantity compares
    equal to 0, and unchanged otherwise, whatever the numbers.  On exact
    numbers and finite floats that is when the whole stored quantity was
    taken; with an infinite or NaN quantity stored, nothing that is left
    compares equal to 0 and the key stays. *)
Theorem X6_remove_item_count
    {num : Type} `{Number num}
    (item_name : string) (quantity : option num) (current : num)
    (self : Warehouse num) :
  items self !! item_name = Some current →
  (remove_item item_name quantity self).2 = ok →
  get_item_count (remove_item item_name quantity self).1
  = if eqb (sub current (default current quantity)) zero
    then pred (get_item_count self)
    else get_item_count self.
Proof.
  unfold get_item_count. intros Hk.
  destruct (leb (default current quantity) zero) eqn:Hle.
  { rewrite (remove_item_nonpositive _ _ current) by assumption. discriminate. }
  destruct (ltb current (default current quantity)) eqn:Hlt.
  { rewrite (remove_item_too_much _ _ current) by assumption. discriminate. }
  rewrite (remove_item_enough _ _ current) by assumption.
  intros _. cbn [fst items].
  destruct (eqb (sub current (default current quantity)) zero).
  - apply (map_size_delete_Some item_name (items self)). eauto.
  - apply map_size_insert_Some. eauto.
Qed.

(** On floats: all 30.0 bolts taken, 10.0 of them taken, and inf bolts
    taken from inf. *)
Lemma X6_remove_item_count_witness :
  get_item_count (remove_item "bolt" None float_with_30_bolts).1
  = pred (get_item_count float_with_30_bolts)
  ∧ get_item_count
      (remove_item "bolt" (Some (Binary64.of_Z 10)) float_with_30_bolts).1
    = get_item_count float_with_30_bolts
  ∧ get_item_count (remove_item "bolt" None float_with_inf_bolts).1
    = get_item_count float_with_inf_bolts.
Proof.
  split; [|split].
  - rewrite (X6_remove_item_count "bolt" None (Binary64.of_Z 30) float_with_30_bolts)
      by (vm_compute; reflexivity).
    vm_compute. reflexivity.
  - rewrite (X6_remove_item_count "bolt" (Some (Binary64.of_Z 10))
               (Binary64.of_Z 30) float_with_30_bolts)
      by (vm_compute; reflexivity).
    vm_compute. reflexivity.
  - rewrite (X6_remove_item_count "bolt" None Binary64.inf float_with_inf_bolts)
      by (vm_compute; reflexivity).
    vm_compute. reflexivity.
Defined.

Lemma positive_total_zero (m : gmap string Qc) :
  positive_items m → total m = 0 → m = ∅.
Proof.
  intros Hm Hzero. destruct (map_choose_or_empty m) as [(k & x & Hk)|Hempty];
    [|exact Hempty].
  exfalso. pose proof (positive_lookup _ _ _ Hm Hk) as Hx.
  pose proof (lookup_le_total _ _ _ Hm Hk) as Hle. qc_lra.
Qed.

(** X7: on exact numbers, in every state reached from a warehouse created
    without an initial balance, by any sequence of item calls, the balance
    is 0 exactly when no item is stored.  (On floats a balance may remain
    after the last item is removed.) *)
Theorem X7_empty_iff_no_balance
    (n : string) (capacity : Qc) (fresh : Warehouse Qc) (cs : list (call Qc)) :
  init n capacity 0 = inr fresh →
  (saldo (run cs fresh) = 0 ↔ get_item_count (run cs fresh) = 0%nat)
  ∧ (saldo (run cs fresh) = 0 ↔ items (run cs fresh) = ∅).
Proof.
  intros Hinit.
  destruct (run_invariant 0 cs fresh (init_invariant _ _ _ _ Hinit))
    as (_ & Hsum & Hitems & _).
  assert (saldo (run cs fresh) = 0 ↔ items (run cs fresh) = ∅) as Hiff.
  { split.
    - intros Hzero. apply positive_total_zero; [exact Hitems|]. qc_lra.
    - intros Hempty. rewrite Hempty, total_empty in Hsum. qc_lra. }
  split; [|exact Hiff].
  unfold get_item_count. rewrite map_size_empty_iff. exact Hiff.
Qed.

Lemma X7_empty_iff_no_balance_witness :
  (saldo (run scenario_1_2_3 varasto_100) = 0
   ↔ get_item_count (run scenario_1_2_3 varasto_100) = 0%nat)
  ∧ (saldo (run scenario_1_2_3 varasto_100) = 0
     ↔ items (run scenario_1_2_3 varasto_100) = ∅).
Proof.
  apply (X7_empty_iff_no_balance "varasto" (Qc_of_Z 100) varasto_100 scenario_1_2_3).
  vm_compute. reflexivity.
Defined.


(** X8: in a warehouse with positive stored quantities, whatever the
    numbers, [remove_item] without a quantity takes away for good an item
    whose stored quantity less itself compares equal to 0 (every exact
    number and every finite float): a second [remove_item] of that name,
    with any quantity argument, fails with [NotFound]. *)
Theorem X8_remove_all_then_not_found
    {num : Type} `{NumberLaws num}
    (item_name : string) (quantity : option num) (current : num)
    (self : Warehouse num) :
  positive_items (items self) →
  items self !! item_name = Some current →
  eqb (sub current current) zero = true →
  remove_item item_name quantity (remove_item item_name None self).1
  = ((remove_item item_name None self).1, NotFound).
Proof.
  intros Hitems Hk Hzero.
  pose proof (Hitems _ _ Hk) as Hcur. cbn beta in Hcur.
  apply remove_item_absent.
  rewrite (remove_item_enough _ _ current);
    [|exact Hk|apply positive_not_leb, Hcur|apply ltb_irrefl].
  cbn [fst items default from_option]. rewrite Hzero. apply lookup_delete_eq.
Qed.

Lemma X8_remove_all_then_not_found_witness :
  remove_item "bolt" (Some (Binary64.of_Z 30))
    (remove_item "bolt" None float_with_30_bolts).1
  = ((remove_item "bolt" None float_with_30_bolts).1, NotFound).
Proof.
  apply (X8_remove_all_then_not_found "bolt" (Some (Binary64.of_Z 30))
           (Binary64.of_Z 30) float_with_30_bolts).
  - apply (bool_decide_unpack (positive_items _)). vm_compute. reflexivity.
  - vm_compute. reflexivity.
  - vm_compute. reflexivity.
Defined.

(** * Properties of the web application *)

Section application.
Context {num : Type} `{Number num}.
Variable float : string → option num.
Implicit Types (app : App.t num) (w : Warehouse num) (n : string).

(** ** Form validation and the constructor *)

Lemma validate_accepts n (capacity : option num) (min_capacity : num) :
  App.validate_warehouse_form n capacity min_capacity = None ↔
  n ≠ ""%string
  ∧ ∃ c, capacity = Some c ∧ leb c zero = false ∧ ltb c min_capacity = false.
Proof.
  unfold App.validate_warehouse_form.
  destruct (decide (n = ""%string)) as [Hn|Hn].
  { split; [discriminate|]. intros [Hne _]. contradiction. }
  destruct capacity as [c|].
  2:{ split; [discriminate|]. intros (_ & c & Hc & _). discriminate. }
  destruct (leb c zero) eqn:Hle.
  { split; [discriminate|]. intros (_ & c' & Hc & Hc' & _).
    injection Hc as <-. congruence. }
  destruct (ltb c min_capacity) eqn:Hlt.
  { split; [discriminate|]. intros (_ & c' & Hc & _ & Hc').
    injection Hc as <-. congruence. }
  split; [|reflexivity]. intros _.
  split; [exact Hn|]. exists c. repeat split; assumption.
Qed.

Lemma init_inr n (capacity alku_saldo : num) w :
  init n capacity alku_saldo = inr w →
  w = mkWarehouse (Varasto.Build capacity alku_saldo) n ∅.
Proof.
  unfold init, Varasto.init.
  destruct (leb capacity zero); [discriminate|].
  destruct (ltb alku_saldo zero); [discriminate|].
  destruct (ltb capacity alku_saldo); [discriminate|].
  intros [= <-]. reflexivity.
Qed.

(** ** Warehouses that stay [kept] *)

Lemma add_item_kept (item_name : string) (quantity : num) w :
  kept w → item_name ≠ ""%string → kept (add_item item_name quantity w).1.
Proof.
  intros (Hname & Hempty) Hitem.
  destruct (perform_frame (AddItem item_name quantity) w) as (Hother & Hn & _).
  cbn [perform item_of] in Hother, Hn.
  split; [rewrite Hn; exact Hname|].
  rewrite Hother by congruence. exact Hempty.
Qed.

Lemma remove_item_kept (item_name : string) (quantity : option num) w :
  kept w → kept (remove_item item_name quantity w).1.
Proof.
  intros (Hname & Hempty).
  destruct (perform_frame (RemoveItem item_name quantity) w) as (Hother & Hn & _).
  cbn [perform item_of] in Hother, Hn.
  split; [rewrite Hn; exact Hname|].
  destruct (decide (item_name = ""%string)) as [->|Hitem].
  - rewrite remove_item_absent by exact Hempty. exact Hempty.
  - rewrite Hother by congruence. exact Hempty.
Qed.

(** ** The registry along a session *)

Lemma initial_well_kept : well_kept (App.initial : App.t num).
Proof. split; [reflexivity|apply map_Forall_empty]. Qed.

Lemma replace_well_kept app (id : Z) w w' :
  well_kept app → App.warehouses app !! id = Some w → kept w' →
  well_kept (App.Build (<[id := w']> (App.warehouses app))
               (App.next_warehouse_id app)).
Proof.
  intros [Hnext Hall] Hid Hw'. split; [exact Hnext|]. cbn.
  apply map_Forall_insert_2; [|exact Hall].
  destruct (Hall _ _ Hid) as [Hrange _]. split; assumption.
Qed.

Lemma after_well_kept (r : App.request) app :
  well_kept app → well_kept (App.after float r app).
Proof.
  intros Hkept. pose proof Hkept as [Hnext Hall]. unfold App.after.
  destruct r as [|id|m n capacity|m id n capacity|m id item_name quantity
                 |id item_name quantity_str|id]; cbn [App.handle].
  - exact Hkept.
  - exact Hkept.
  - unfold App.create_warehouse. destruct m; [exact Hkept|].
    destruct (App.validate_warehouse_form n _ zero) as [e|] eqn:Hvalid;
      [exact Hkept|].
    apply validate_accepts in Hvalid as (Hn & c & -> & _).
    destruct (init n c zero) as [e|w] eqn:Hinit; [exact Hkept|].
    apply init_inr in Hinit as ->.
    split; cbn; [lia|].
    apply map_Forall_insert_2.
    + split; [lia|]. split; [exact Hn|apply lookup_empty].
    + intros k w Hk. destruct (Hall _ _ Hk) as [Hrange Hw].
      split; [lia|exact Hw].
  - unfold App.edit_warehouse, App.get_warehouse_or_redirect.
    destruct (App.warehouses app !! id) as [w|] eqn:Hid; [|exact Hkept].
    destruct m; [exact Hkept|].
    destruct (App.validate_warehouse_form n _ (saldo w)) as [e|] eqn:Hvalid;
      [exact Hkept|].
    apply validate_accepts in Hvalid as (Hn & c & -> & _).
    apply (replace_well_kept app id w); [exact Hkept|exact Hid|].
    destruct (Hall _ _ Hid) as [_ [_ Hempty]]. split; [exact Hn|exact Hempty].
  - unfold App.add_item. destruct m; [exact Hkept|].
    destruct id as [id|]; [|exact Hkept].
    destruct (App.warehouses app !! id) as [w|] eqn:Hid; [|exact Hkept].
    cbn zeta.
    destruct (decide (item_name = ""%string)) as [|Hitem]; [exact Hkept|].
    destruct (App.parse_float float quantity zero) as [q|]; [|exact Hkept].
    destruct (add_item item_name q w) as [w' [success error]] eqn:Hadd.
    assert (kept w') as Hw'.
    { replace w' with (add_item item_name q w).1 by (rewrite Hadd; reflexivity).
      destruct (Hall _ _ Hid) as [_ Hw]. apply add_item_kept; assumption. }
    destruct success; apply (replace_well_kept app id w); assumption.
  - unfold App.remove_item, App.get_warehouse_or_redirect.
    destruct (App.warehouses app !! id) as [w|] eqn:Hid; [|exact Hkept].
    cbn zeta.
    destruct (bool_decide (quantity_str ≠ ""%string) && _); [exact Hkept|].
    destruct (remove_item item_name _ w) as [w' [success error]] eqn:Hremove.
    assert (kept w') as Hw'.
    { match type of Hremove with
      | remove_item _ ?q _ = _ =>
          replace w' with (remove_item item_name q w).1
            by (rewrite Hremove; reflexivity)
      end.
      destruct (Hall _ _ Hid) as [_ Hw]. apply remove_item_kept; assumption. }
    destruct success; apply (replace_well_kept app id w); assumption.
  - unfold App.delete_warehouse, App.get_warehouse_or_redirect.
    destruct (App.warehouses app !! id) as [w|] eqn:Hid; [|exact Hkept].
    split; [exact Hnext|]. cbn. apply map_Forall_delete. exact Hall.
Qed.

Lemma serve_well_kept (rs : list App.request) app :
  well_kept app → well_kept (App.serve float rs app).
Proof.
  revert app. induction rs as [|r rs IH]; intros app Hkept; [exact Hkept|].
  apply IH, after_well_kept, Hkept.
Qed.

(** ** Allocation of ids *)

(** A request never lowers the counter, and an id that comes into use is
    the value of the counter, which is then raised by one. *)
Lemma after_allocation (r : App.request) app :
  (App.next_warehouse_id app ≤ App.next_warehouse_id (App.after float r app))%Z
  ∧ ∀ id, App.warehouses app !! id = None →
          is_Some (App.warehouses (App.after float r app) !! id) →
          id = App.next_warehouse_id app
          ∧ App.next_warehouse_id (App.after float r app)
            = (App.next_warehouse_id app + 1)%Z.
Proof.
  assert (∀ id : Z, App.warehouses app !! id = None →
                    is_Some (App.warehouses app !! id) → False) as Hsame.
  { intros id -> [w Hw]. discriminate. }
  assert (∀ (id k : Z) w w',
            App.warehouses app !! k = Some w →
            App.warehouses app !! id = None →
            is_Some (<[k := w']> (App.warehouses app) !! id) → False) as Hreplace.
  { intros id k w w' Hk Hid Hsome.
    destruct (decide (k = id)) as [->|Hne]; [congruence|].
    rewrite lookup_insert_ne in Hsome by exact Hne. eapply Hsame; eassumption. }
  unfold App.after.
  destruct r as [|id|m n capacity|m id n capacity|m id item_name quantity
                 |id item_name quantity_str|id]; cbn [App.handle].
  - split; [reflexivity|]. intros i Hi Hs. destruct (Hsame i Hi Hs).
  - split; [reflexivity|]. intros i Hi Hs. destruct (Hsame i Hi Hs).
  - unfold App.create_warehouse.
    destruct m; [split; [reflexivity|]; intros i Hi Hs; destruct (Hsame i Hi Hs)|].
    destruct (App.validate_warehouse_form n _ zero) as [e|] eqn:Hvalid;
      [split; [reflexivity|]; intros i Hi Hs; destruct (Hsame i Hi Hs)|].
    apply validate_accepts in Hvalid as (Hn & c & -> & _).
    destruct (init n c zero) as [e|w] eqn:Hinit;
      [split; [reflexivity|]; intros i Hi Hs; destruct (Hsame i Hi Hs)|].
    cbn. split; [lia|]. intros i Hi Hs.
    destruct (decide (App.next_warehouse_id app = i)) as [<-|Hne]; [done|].
    rewrite lookup_insert_ne in Hs by exact Hne. destruct (Hsame i Hi Hs).
  - unfold App.edit_warehouse, App.get_warehouse_or_redirect.
    destruct (App.warehouses app !! id) as [w|] eqn:Hid;
      [|split; [reflexivity|]; intros i Hi Hs; destruct (Hsame i Hi Hs)].
    destruct m; [split; [reflexivity|]; intros i Hi Hs; destruct (Hsame i Hi Hs)|].
    destruct (App.validate_warehouse_form n _ (saldo w)) as [e|] eqn:Hvalid;
      [split; [reflexivity|]; intros i Hi Hs; destruct (Hsame i Hi Hs)|].
    apply validate_accepts in Hvalid as (Hn & c & -> & _). cbn.
    split; [reflexivity|]. intros i Hi Hs. destruct (Hreplace i id w _ Hid Hi Hs).
  - unfold App.add_item.
    destruct m; [split; [reflexivity|]; intros i Hi Hs; destruct (Hsame i Hi Hs)|].
    destruct id as [id|];
      [|split; [reflexivity|]; intros i Hi Hs; destruct (Hsame i Hi Hs)].
    destruct (App.warehouses app !! id) as [w|] eqn:Hid;
      [|split; [reflexivity|]; intros i Hi Hs; destruct (Hsame i Hi Hs)].
    cbn zeta.
    destruct (decide (item_name = ""%string));
      [split; [reflexivity|]; intros i Hi Hs; destruct (Hsame i Hi Hs)|].
    destruct (App.parse_float float quantity zero) as [q|];
      [|split; [reflexivity|]; intros i Hi Hs; destruct (Hsame i Hi Hs)].
    destruct (add_item item_name q w) as [w' [[] error]]; cbn;
      (split; [reflexivity|]; intros i Hi Hs; destruct (Hreplace i id w _ Hid Hi Hs)).
  - unfold App.remove_item, App.get_warehouse_or_redirect.
    destruct (App.warehouses app !! id) as [w|] eqn:Hid;
      [|split; [reflexivity|]; intros i Hi Hs; destruct (Hsame i Hi Hs)].
    cbn zeta.
    destruct (bool_decide (quantity_str ≠ ""%string) && _);
      [split; [reflexivity|]; intros i Hi Hs; destruct (Hsame i Hi Hs)|].
    destruct (remove_item item_name _ w) as [w' [[] error]]; cbn;
      (split; [reflexivity|]; intros i Hi Hs; destruct (Hreplace i id w _ Hid Hi Hs)).
  - unfold App.delete_warehouse, App.get_warehouse_or_redirect.
    destruct (App.warehouses app !! id) as [w|] eqn:Hid;
      [|split; [reflexivity|]; intros i Hi Hs; destruct (Hsame i Hi Hs)].
    cbn. split; [reflexivity|]. intros i Hi [w' Hw'].
    apply lookup_delete_Some in Hw' as [_ Hw']. congruence.
Qed.

(** An id below the counter that is not in use never comes into use. *)
Lemma retired_forever (rs : list App.request) app (id : Z) :
  (id < App.next_warehouse_id app)%Z →
  App.warehouses app !! id = None →
  App.warehouses (App.serve float rs app) !! id = None.
Proof.
  revert app. induction rs as [|r rs IH]; intros app Hbelow Hid; [exact Hid|].
  cbn [App.serve foldl]. destruct (after_allocation r app) as [Hmono Hnew].
  apply IH; [lia|].
  destruct (App.warehouses (App.after float r app) !! id) as [w|] eqn:Hafter;
    [|reflexivity].
  destruct (Hnew id Hid) as [Heq _]; [rewrite Hafter; eauto|]. lia.
Qed.

(** ** Rejected requests *)

Lemma same_entry app (id : Z) w :
  App.warehouses app !! id = Some w →
  App.Build (<[id := w]> (App.warehouses app)) (App.next_warehouse_id app) = app.
Proof. destruct app as [ws next]. cbn. intros Hid. rewrite insert_id; done. Qed.

Lemma parse_float_empty (default : num) :
  App.parse_float float "" default = Some default.
Proof.
  unfold App.parse_float.
  destruct (decide (""%string = ""%string)); [reflexivity|contradiction].
Qed.

End application.


(** X11: after any sequence of requests to the application, started from
    its initial state, every warehouse id in use is at least 1 and below
    [next_warehouse_id]. *)
Theorem X11_ids_below_counter
    {num : Type} `{Number num}
    (float : string → option num) (rs : list App.request) :
  map_Forall
    (λ id _, (1 ≤ id < App.next_warehouse_id (App.serve float rs App.initial))%Z)
    (App.warehouses (App.serve float rs App.initial)).
Proof.
  destruct (serve_well_kept float rs App.initial initial_well_kept) as [_ Hall].
  intros id w Hid. apply (Hall id w Hid).
Qed.

(** X13: after any sequence of requests to the application, every warehouse
    of the registry has a non-empty name and stores nothing under the empty
    item name. *)
Theorem X13_no_empty_names
    {num : Type} `{Number num}
    (float : string → option num) (rs : list App.request) :
  map_Forall
    (λ _ w, name w ≠ ""%string ∧ items w !! ""%string = None)
    (App.warehouses (App.serve float rs App.initial)).
Proof.
  destruct (serve_well_kept float rs App.initial initial_well_kept) as [_ Hall].
  intros id w Hid. destruct (Hall id w Hid) as (_ & Hname & Hempty).
  split; assumption.
Qed.

(** X14: no request lowers [next_warehouse_id], and whenever a request
    brings an id into use, that id is the value the counter had and the
    counter is raised by exactly one. *)
Theorem X14_id_allocation
    {num : Type} `{Number num}
    (float : string → option num) (r : App.request) (app : App.t num) :
  (App.next_warehouse_id app ≤ App.next_warehouse_id (App.after float r app))%Z
  ∧ ∀ id, App.warehouses app !! id = None →
          is_Some (App.warehouses (App.after float r app) !! id) →
          id = App.next_warehouse_id app
          ∧ App.next_warehouse_id (App.after float r app)
            = (App.next_warehouse_id app + 1)%Z.
Proof. apply after_allocation. Qed.

(** X15: an id is never used again: once a warehouse of a running
    application is deleted, no later sequence of requests puts a warehouse
    under its id. *)
Theorem X15_deleted_id_not_reused
    {num : Type} `{Number num}
    (float : string → option num) (before later : list App.request) (id : Z) :
  is_Some (App.warehouses (App.serve float before App.initial) !! id) →
  App.warehouses
    (App.serve float later
       (App.after float (App.DeleteWarehouse id)
          (App.serve float before App.initial))) !! id = None.
Proof.
  intros [w Hid].
  destruct (serve_well_kept float before App.initial initial_well_kept)
    as [_ Hall].
  destruct (Hall id w Hid) as [Hrange _].
  set (app := App.serve float before App.initial) in *.
  assert (App.after float (App.DeleteWarehouse id) app
          = App.Build (delete id (App.warehouses app)) (App.next_warehouse_id app))
    as ->.
  { unfold App.after. cbn [App.handle].
    unfold App.delete_warehouse, App.get_warehouse_or_redirect.
    rewrite Hid. reflexivity. }
  apply retired_forever; cbn; [lia|apply lookup_delete_eq].
Qed.

Lemma X15_deleted_id_not_reused_witness :
  App.warehouses
    (App.serve digits_float [App.CreateWarehouse App.POST "west" "10"]
       (App.after digits_float (App.DeleteWarehouse 2%Z)
          (App.serve digits_float (take 4 session) App.initial))) !! 2%Z = None.
Proof.
  apply (X15_deleted_id_not_reused digits_float (take 4 session)
           [App.CreateWarehouse App.POST "west" "10"] 2%Z).
  apply (bool_decide_unpack (is_Some _)). vm_compute. reflexivity.
Defined.

(** Closes a branch of a handler that flashed no error, or changed
    nothing. *)
Ltac error_or_same :=
  intros [= <- <-] Hin;
  first
    [ reflexivity
    | exfalso; apply elem_of_nil in Hin; exact Hin
    | exfalso; apply list_elem_of_singleton in Hin; discriminate Hin ].

(** X16: a request that flashes an error message leaves the state of the
    application, every warehouse of the registry included, exactly as it
    was. *)
Theorem X16_error_changes_nothing
    {num : Type} `{Number num}
    (float : string → option num) (r : App.request) (app app' : App.t num)
    (flashes : list (App.flash num)) (m : App.message num) :
  App.handle float r app = inr (app', flashes) →
  (m, "error"%string) ∈ flashes →
  app' = app.
Proof.
  destruct r as [|id|md n capacity|md id n capacity|md id item_name quantity
                 |id item_name quantity_str|id]; cbn [App.handle].
  - unfold App.index. error_or_same.
  - unfold App.warehouse_detail. error_or_same.
  - unfold App.create_warehouse. destruct md; [error_or_same|].
    destruct (App.validate_warehouse_form n _ zero) as [e|] eqn:Hvalid;
      [error_or_same|].
    apply validate_accepts in Hvalid as (Hn & c & -> & _).
    destruct (init n c zero) as [e|w]; [discriminate|]. error_or_same.
  - unfold App.edit_warehouse, App.get_warehouse_or_redirect.
    destruct (App.warehouses app !! id) as [w|] eqn:Hid; [|error_or_same].
    destruct md; [error_or_same|].
    destruct (App.validate_warehouse_form n _ (saldo w)) as [e|] eqn:Hvalid;
      [error_or_same|].
    apply validate_accepts in Hvalid as (Hn & c & -> & _). error_or_same.
  - unfold App.add_item. destruct md; [error_or_same|].
    destruct id as [id|]; [|error_or_same].
    destruct (App.warehouses app !! id) as [w|] eqn:Hid; [|error_or_same].
    cbn zeta.
    destruct (decide (item_name = ""%string)); [error_or_same|].
    destruct (App.parse_float float quantity zero) as [q|]; [|error_or_same].
    destruct (add_item item_name q w) as [w' [[] error]] eqn:Hadd;
      [error_or_same|].
    apply add_item_failed in Hadd as ->. rewrite (same_entry app id w Hid).
    error_or_same.
  - unfold App.remove_item, App.get_warehouse_or_redirect.
    destruct (App.warehouses app !! id) as [w|] eqn:Hid; [|error_or_same].
    cbn zeta.
    destruct (bool_decide (quantity_str ≠ ""%string) && _); [error_or_same|].
    destruct (remove_item item_name _ w) as [w' [[] error]] eqn:Hremove;
      [error_or_same|].
    apply remove_item_failed in Hremove as ->. rewrite (same_entry app id w Hid).
    error_or_same.
  - unfold App.delete_warehouse, App.get_warehouse_or_redirect.
    destruct (App.warehouses app !! id) as [w|] eqn:Hid; error_or_same.
Qed.

(** Adding 80 bolts to a warehouse of capacity 100 that holds 30. *)
Lemma X16_error_changes_nothing_witness :
  App.after digits_float (App.AddItemForm App.POST (Some 1%Z) "bolt" "80")
    (App.serve digits_float (take 3 session) App.initial)
  = App.serve digits_float (take 3 session) App.initial.
Proof.
  apply (X16_error_changes_nothing digits_float
           (App.AddItemForm App.POST (Some 1%Z) "bolt" "80")
           (App.serve digits_float (take 3 session) App.initial)
           (App.after digits_float (App.AddItemForm App.POST (Some 1%Z) "bolt" "80")
              (App.serve digits_float (take 3 session) App.initial))
           [(App.Text "Not enough space in warehouse", "error"%string)]
           (App.Text "Not enough space in warehouse")).
  - vm_compute. reflexivity.
  - apply list_elem_of_singleton. reflexivity.
Defined.

(** X17: [create_warehouse] never lets the exception of the [Warehouse]
    constructor escape: whatever the form holds and whatever the numbers,
    the request is answered, every capacity the constructor would refuse
    being rejected by the validation of the form before. *)
Theorem X17_create_warehouse_never_raises
    {num : Type} `{NumberLaws num}
    (float : string → option num) (m : App.method) (n capacity : string)
    (app : App.t num) :
  ∃ app' flashes, App.create_warehouse float m n capacity app = inr (app', flashes).
Proof.
  unfold App.create_warehouse. destruct m; [eauto|].
  destruct (App.validate_warehouse_form n _ zero) as [e|] eqn:Hvalid; [eauto|].
  apply validate_accepts in Hvalid as (Hn & c & -> & Hle & Hlt).
  unfold init, Varasto.init. rewrite Hle, ltb_irrefl, Hlt. eauto.
Qed.

Lemma X17_create_warehouse_never_raises_witness :
  ∃ app' flashes,
    App.create_warehouse digits_float App.POST "north" "100" App.initial
    = inr (app', flashes).
Proof.
  apply (X17_create_warehouse_never_raises digits_float App.POST "north" "100"
           App.initial).
Defined.

(** X18: a request changes no warehouse other than the one it is addressed
    to: every id that is neither the addressed one nor the value of the
    counter maps to the same warehouse, or to none, before and after. *)
Theorem X18_other_warehouses_untouched
    {num : Type} `{Number num}
    (float : string → option num) (r : App.request) (app : App.t num) (id : Z) :
  addressed r ≠ Some id →
  id ≠ App.next_warehouse_id app →
  App.warehouses (App.after float r app) !! id = App.warehouses app !! id.
Proof.
  intros Haddr Hnext. unfold App.after.
  destruct r as [|k|md n capacity|md k n capacity|md k item_name quantity
                 |k item_name quantity_str|k]; cbn [App.handle addressed] in *.
  - reflexivity.
  - reflexivity.
  - unfold App.create_warehouse. destruct md; [reflexivity|].
    destruct (App.validate_warehouse_form n _ zero) as [e|] eqn:Hvalid;
      [reflexivity|].
    apply validate_accepts in Hvalid as (Hn & c & -> & _).
    destruct (init n c zero) as [e|w]; [reflexivity|]. cbn.
    apply lookup_insert_ne. congruence.
  - unfold App.edit_warehouse, App.get_warehouse_or_redirect.
    destruct (App.warehouses app !! k) as [w|] eqn:Hk; [|reflexivity].
    destruct md; [reflexivity|].
    destruct (App.validate_warehouse_form n _ (saldo w)) as [e|] eqn:Hvalid;
      [reflexivity|].
    apply validate_accepts in Hvalid as (Hn & c & -> & _). cbn.
    apply lookup_insert_ne. congruence.
  - unfold App.add_item. destruct md; [reflexivity|].
    destruct k as [k|]; [|reflexivity].
    destruct (App.warehouses app !! k) as [w|] eqn:Hk; [|reflexivity].
    cbn zeta.
    destruct (decide (item_name = ""%string)); [reflexivity|].
    destruct (App.parse_float float quantity zero) as [q|]; [|reflexivity].
    destruct (add_item item_name q w) as [w' [[] error]]; cbn;
      apply lookup_insert_ne; congruence.
  - unfold App.remove_item, App.get_warehouse_or_redirect.
    destruct (App.warehouses app !! k) as [w|] eqn:Hk; [|reflexivity].
    cbn zeta.
    destruct (bool_decide (quantity_str ≠ ""%string) && _); [reflexivity|].
    destruct (remove_item item_name _ w) as [w' [[] error]]; cbn;
      apply lookup_insert_ne; congruence.
  - unfold App.delete_warehouse, App.get_warehouse_or_redirect.
    destruct (App.warehouses app !! k) as [w|] eqn:Hk; [|reflexivity].
    cbn. apply lookup_delete_ne. congruence.
Qed.

(** Deleting warehouse 2 leaves warehouse 1 as it is. *)
Lemma X18_other_warehouses_untouched_witness :
  App.warehouses
    (App.after digits_float (App.DeleteWarehouse 2%Z)
       (App.serve digits_float (take 4 session) App.initial)) !! 1%Z
  = App.warehouses (App.serve digits_float (take 4 session) App.initial) !! 1%Z.
Proof.
  apply (X18_other_warehouses_untouched digits_float (App.DeleteWarehouse 2%Z)
           (App.serve digits_float (take 4 session) App.initial) 1%Z).
  - vm_compute. discriminate.
  - vm_compute. discriminate.
Defined.

(** X19: an empty numeric form field is read as the number 0, not as a
    missing number.  Creating a warehouse with a name and an empty capacity
    is refused with "Capacity must be positive", and adding an item with a
    name and an empty quantity to an existing warehouse is refused with
    "Quantity must be positive"; [float] is not consulted and nothing
    changes. *)
Theorem X19_empty_number_is_zero
    {num : Type} `{NumberLaws num}
    (float : string → option num) (app : App.t num) :
  (∀ n, n ≠ ""%string →
     App.create_warehouse float App.POST n "" app
     = inr (app, [(App.Text "Capacity must be positive", "error"%string)]))
  ∧ (∀ id w item_name,
       App.warehouses app !! id = Some w → item_name ≠ ""%string →
       App.add_item float App.POST (Some id) item_name "" app
       = inr (app, [(App.Text "Quantity must be positive", "error"%string)])).
Proof.
  split.
  - intros n Hn. unfold App.create_warehouse.
    rewrite parse_float_empty. unfold App.validate_warehouse_form.
    destruct (decide (n = ""%string)); [contradiction|].
    rewrite leb_zero_zero. reflexivity.
  - intros id w item_name Hid Hitem. unfold App.add_item.
    rewrite parse_float_empty, Hid. cbn zeta.
    destruct (decide (item_name = ""%string)); [contradiction|].
    rewrite add_item_nonpositive by apply leb_zero_zero.
    unfold InvalidArgument. cbn [App.text_of].
    rewrite (same_entry app id w Hid). reflexivity.
Qed.

Lemma X19_empty_number_is_zero_witness :
  App.create_warehouse digits_float App.POST "east" ""
    (App.serve digits_float session App.initial)
  = inr (App.serve digits_float session App.initial,
         [(App.Text "Capacity must be positive", "error"%string)])
  ∧ App.add_item digits_float App.POST (Some 1%Z) "nail" ""
      (App.serve digits_float session App.initial)
    = inr (App.serve digits_float session App.initial,
           [(App.Text "Quantity must be positive", "error"%string)]).
Proof.
  destruct (X19_empty_number_is_zero digits_float
              (App.serve digits_float session App.initial)) as [Hcreate Hadd].
  split.
  - apply Hcreate. discriminate.
  - apply (Hadd 1%Z (mkWarehouse
                       (Varasto.Build (Binary64.of_Z 100) (Binary64.of_Z 30))
                       "north" (<["bolt"%string := Binary64.of_Z 30]> ∅))).
    + vm_compute. reflexivity.
    + discriminate.
Defined.

(** X20: posting the removal form with an empty quantity for an item of a
    warehouse of the registry whose stored quantity is positive always
    succeeds, whatever the numbers: [float] is not consulted, "Removed" is
    flashed, and the warehouse becomes what [Warehouse.remove_item] without
    a quantity makes of it, the item name being deleted when the stored
    quantity less itself compares equal to 0 (every exact number and every
    finite float). *)
Theorem X20_remove_form_without_quantity
    {num : Type} `{NumberLaws num}
    (float : string → option num) (app : App.t num) (id : Z) (w : Warehouse num)
    (item_name : string) (current : num) :
  App.warehouses app !! id = Some w →
  items w !! item_name = Some current →
  ltb zero current = true →
  App.remove_item float id item_name "" app
  = inr (App.Build
           (<[id := (remove_item item_name None w).1]> (App.warehouses app))
           (App.next_warehouse_id app),
         [(App.Removed item_name (name w), "success"%string)])
  ∧ items (remove_item item_name None w).1
    = (if eqb (sub current current) zero
       then delete item_name (items w)
       else <[item_name := sub current current]> (items w))
  ∧ name (remove_item item_name None w).1 = name w
  ∧ tilavuus (remove_item item_name None w).1 = tilavuus w.
Proof.
  intros Hid Hk Hpos.
  assert (remove_item item_name None w
          = (mkWarehouse (Varasto.ota_varastosta current (base w)).1 (name w)
               (if eqb (sub current current) zero
                then delete item_name (items w)
                else <[item_name := sub current current]> (items w)), ok))
    as Hremove.
  { apply (remove_item_enough item_name None current w);
      [exact Hk|apply positive_not_leb, Hpos|apply ltb_irrefl]. }
  split; [|rewrite Hremove; cbn [fst items name]; split; [reflexivity|];
           split; [reflexivity|]; unfold tilavuus; cbn [base];
           apply ota_varastosta_tilavuus].
  unfold App.remove_item, App.get_warehouse_or_redirect. rewrite Hid.
  cbn zeta.
  destruct (decide (""%string = ""%string)) as [_|Hne]; [|contradiction].
  rewrite bool_decide_eq_false_2 by (intros Hne; apply Hne; reflexivity).
  cbn [andb]. rewrite Hremove. reflexivity.
Qed.

Lemma X20_remove_form_without_quantity_witness :
  App.remove_item digits_float 1%Z "bolt" ""
    (App.Build {[ 1%Z := float_with_30_bolts ]} 2)
  = inr (App.Build
           (<[1%Z := (remove_item "bolt" None float_with_30_bolts).1]>
              {[ 1%Z := float_with_30_bolts ]})
           2,
         [(App.Removed "bolt" (name float_with_30_bolts), "success"%string)])
  ∧ items (remove_item "bolt" None float_with_30_bolts).1
    = (if eqb (sub (Binary64.of_Z 30) (Binary64.of_Z 30)) zero
       then delete "bolt" (items float_with_30_bolts)
       else <["bolt"%string := sub (Binary64.of_Z 30) (Binary64.of_Z 30)]>
              (items float_with_30_bolts))
  ∧ name (remove_item "bolt" None float_with_30_bolts).1 = name float_with_30_bolts
  ∧ tilavuus (remove_item "bolt" None float_with_30_bolts).1
    = tilavuus float_with_30_bolts.
Proof.
  refine (X20_remove_form_without_quantity digits_float
            (App.Build {[ 1%Z := float_with_30_bolts ]} 2) 1%Z float_with_30_bolts
            "bolt" (Binary64.of_Z 30) _ _ _).
  - vm_compute. reflexivity.
  - vm_compute. reflexivity.
  - vm_compute. reflexivity.
Defined.

(** X21: [edit_warehouse] succeeds only for an existing warehouse, a
    non-empty name and a capacity that [parse_float] reads as a number for
    which neither [capacity <= 0] nor [capacity < saldo] holds (a positive
    capacity not below the balance, or a NaN); it then replaces the name and
    the capacity and keeps the items and the balance. *)
Theorem X21_edit_keeps_stock
    {num : Type} `{Number num}
    (float : string → option num) (m : App.method) (id : Z) (n capacity : string)
    (app app' : App.t num) (msg : App.message num) :
  App.edit_warehouse float m id n capacity app
  = inr (app', [(msg, "success"%string)]) →
  ∃ w c,
    App.warehouses app !! id = Some w
    ∧ App.parse_float float capacity zero = Some c
    ∧ n ≠ ""%string ∧ leb c zero = false ∧ ltb c (saldo w) = false
    ∧ app' = App.Build
               (<[id := mkWarehouse (Varasto.Build c (saldo w)) n (items w)]>
                  (App.warehouses app))
               (App.next_warehouse_id app).
Proof.
  unfold App.edit_warehouse, App.get_warehouse_or_redirect.
  destruct (App.warehouses app !! id) as [w|] eqn:Hid; [|discriminate].
  destruct m; [discriminate|].
  destruct (App.validate_warehouse_form n _ (saldo w)) as [e|] eqn:Hvalid;
    [discriminate|].
  apply validate_accepts in Hvalid as (Hn & c & Hc & Hpos & Hle).
  rewrite Hc. intros [= <- _]. exists w, c. repeat split; assumption.
Qed.

Lemma X21_edit_keeps_stock_witness :
  ∃ w c,
    App.warehouses (App.serve digits_float (take 3 session) App.initial) !! 2%Z
    = Some w
    ∧ App.parse_float digits_float "60" zero = Some c
    ∧ "south"%string ≠ ""%string ∧ leb c zero = false ∧ ltb c (saldo w) = false
    ∧ App.after digits_float (App.EditWarehouse App.POST 2%Z "south" "60")
        (App.serve digits_float (take 3 session) App.initial)
      = App.Build
          (<[2%Z := mkWarehouse (Varasto.Build c (saldo w)) "south" (items w)]>
             (App.warehouses (App.serve digits_float (take 3 session) App.initial)))
          (App.next_warehouse_id
             (App.serve digits_float (take 3 session) App.initial)).
Proof.
  apply (X21_edit_keeps_stock digits_float App.POST 2%Z "south" "60"
           (App.serve digits_float (take 3 session) App.initial)
           (App.after digits_float (App.EditWarehouse App.POST 2%Z "south" "60")
              (App.serve digits_float (take 3 session) App.initial))
           (App.Updated "south")).
  vm_compute. reflexivity.
Defined.
